(** * audio-to-doc: the transcription pipeline of [audio_to_text_service.py]

    A shallow embedding of the service's Python code.  Pure code is written
    as functions; code that raises, returns early or mutates the converter,
    the [result] dictionary or the file system runs in a small state monad
    with three outcomes (value, early [return], raised exception).  The
    third-party collaborators (pydub, speech_recognition, Vosk, python-docx,
    the operating system) are not part of the repository: their answers are
    the fields of the record [env], one oracle per call the source makes. *)

From Stdlib Require Import ZArith String Ascii List Floats Lia.
From stdpp Require Import gmap strings list pretty.
Import ListNotations.

#[local] Set Warnings "-inexact-float,-abstract-large-number".
#[local] Open Scope string_scope.

(** ** Python strings

    A [str] is modelled as a [string] of 8-bit characters; the functions
    below agree with Python's on ASCII text. *)

Module Py.

(** [str.isspace] on one character: TAB..CR, FS..US and the space. *)
Definition isspace (c : ascii) : bool :=
  let n := nat_of_ascii c in
  (((9 <=? n) && (n <=? 13)) || ((28 <=? n) && (n <=? 32)))%nat.

Definition lower_char (c : ascii) : ascii :=
  let n := nat_of_ascii c in
  if ((65 <=? n) && (n <=? 90))%nat then ascii_of_nat (n + 32) else c.

(** [s.lower()] *)
Fixpoint lower (s : string) : string :=
  match s with
  | EmptyString => EmptyString
  | String c s' => String (lower_char c) (lower s')
  end.

(** [s.lstrip()] *)
Fixpoint lstrip (s : string) : string :=
  match s with
  | EmptyString => EmptyString
  | String c s' => if isspace c then lstrip s' else s
  end.

(** [s.rstrip()] *)
Fixpoint rstrip (s : string) : string :=
  match s with
  | EmptyString => EmptyString
  | String c s' =>
      match rstrip s' with
      | EmptyString => if isspace c then EmptyString else String c EmptyString
      | r => String c r
      end
  end.

(** [s.strip()] *)
Definition strip (s : string) : string := rstrip (lstrip s).

(** [s.lstrip(c)] for a one-character argument. *)
Fixpoint lstrip_char (c : ascii) (s : string) : string :=
  match s with
  | EmptyString => EmptyString
  | String d s' => if Ascii.eqb c d then lstrip_char c s' else s
  end.

(** [s.split()]: the maximal runs of non-whitespace characters. *)
Fixpoint split_go (tok : string) (s : string) : list string :=
  match s with
  | EmptyString => match tok with EmptyString => [] | _ => [tok] end
  | String c s' =>
      if isspace c
      then match tok with
           | EmptyString => split_go EmptyString s'
           | _ => tok :: split_go EmptyString s'
           end
      else split_go (tok ++ String c EmptyString) s'
  end.

Definition split (s : string) : list string := split_go EmptyString s.

(** [sep.join(l)] *)
Definition join (sep : string) (l : list string) : string := String.concat sep l.

(** [s.endswith(suffix)] *)
Definition endswith (s suffix : string) : bool :=
  String.prefix (String.rev suffix) (String.rev s).

(** [sub in s] *)
Fixpoint contains (sub s : string) : bool :=
  String.prefix sub s ||
  match s with
  | EmptyString => false
  | String _ s' => contains sub s'
  end.

(** Truth value of a [str]: non-empty. *)
Definition nonempty (s : string) : bool :=
  match s with EmptyString => false | _ => true end.

(** [range(0, n, step)] for a positive [step]. *)
Definition range (n step : nat) : list nat :=
  map (fun k => k * step) (seq 0 ((n + step - 1) / step)).

(** [float(n)] for a length. *)
Definition float_of_nat (n : nat) : float :=
  PrimFloat.of_uint63 (Uint63.of_Z (Z.of_nat n)).

(** [min(a, b)] on floats: the first argument unless the second is
    strictly smaller. *)
Definition min (a b : float) : float :=
  if PrimFloat.ltb b a then b else a.

(** [sum(l)] on floats, from the integer [0]. *)
Definition sum (l : list float) : float :=
  fold_left PrimFloat.add l 0%float.

End Py.

(** ** Exceptions

    Every exception the service raises itself is a plain [Exception]; the
    handlers only ever read [str(e)], so an exception is its message. *)

Inductive exn : Type := Exception (msg : string).

Definition str (e : exn) : string := let 'Exception m := e in m.

(** Code that can only raise: [exn + A], with the usual bind. *)
Definition Exc (A : Type) : Type := exn + A.

Definition exc_bind {A B} (m : Exc A) (k : A -> Exc B) : Exc B :=
  match m with
  | inl e => inl e
  | inr a => k a
  end.

Notation "'let!' x <- m ; k" := (exc_bind m (fun x => k))
  (at level 20, x pattern, m at level 100, k at level 200).

(** ** The recognition engine (Vosk) *)

(** One entry of the ['result'] list of a Vosk hypothesis; every key may be
    missing ([word_info.get(key, default)]). *)
Record word_info := WordInfo {
  wi_word : option string;
  wi_start : option float;
  wi_end : option float;
  wi_conf : option float
}.

(** [json.loads(rec.Result())]: the keys ['text'] and ['result'] may be
    missing. *)
Record hypothesis := Hyp {
  h_text : option string;
  h_result : option (list word_info)
}.

(** The dictionaries appended to [word_timestamps]. *)
Record word_timestamp := WordTimestamp {
  word : string;
  start : float;
  end_ : float;
  conf : float
}.

(** [speech_recognition.AudioData] *)
Record audio_data := AudioData {
  frame_data : list Byte.byte;
  sample_rate : Z;
  sample_width : Z
}.

(** A loaded [vosk.Model]: the object created by the [model_id]-th load. *)
Record model := Model {
  model_id : nat;
  model_path : string
}.

(** [vosk.KaldiRecognizer]: a stateful incremental decoder.  Each method may
    raise. *)
Record recognizer := Recognizer {
  rec_state : Type;
  KaldiRecognizer : model -> Z -> Exc rec_state;
  SetWords : bool -> rec_state -> rec_state;
  AcceptWaveform : rec_state -> list Byte.byte -> Exc (bool * rec_state);
  Result : rec_state -> Exc (hypothesis * rec_state);
  FinalResult : rec_state -> Exc hypothesis
}.

Section Engine.

Variable vosk : recognizer.

(** [if 'text' in result and result['text']: results.append(result['text'])] *)
Definition append_text (result : hypothesis) (results : list string) : list string :=
  match h_text result with
  | Some t => if Py.nonempty t then results ++ [t] else results
  | None => results
  end.

Definition word_entry (word_info : word_info) : word_timestamp :=
  {| word := default "" (wi_word word_info);
     start := default 0%float (wi_start word_info);
     end_ := default 0%float (wi_end word_info);
     conf := default 0%float (wi_conf word_info) |}.

(** [if 'result' in result: for word_info in result['result']: ...append] *)
Definition append_words (result : hypothesis) (word_timestamps : list word_timestamp)
  : list word_timestamp :=
  match h_result result with
  | Some infos => word_timestamps ++ map word_entry infos
  | None => word_timestamps
  end.

(** The slices [audio_bytes[i:i + chunk_size]] for
    [i in range(0, len(audio_bytes), chunk_size)]. *)
Definition chunks_of (chunk_size : nat) (audio_bytes : list Byte.byte)
  : list (list Byte.byte) :=
  map (fun i => take chunk_size (drop i audio_bytes))
      (Py.range (length audio_bytes) chunk_size).

(** The body of the [for] loop, over the chunks in order. *)
Fixpoint feed_chunks (rec : rec_state vosk) (chunks : list (list Byte.byte))
    (results : list string) (word_timestamps : list word_timestamp)
  : Exc (rec_state vosk * list string * list word_timestamp) :=
  match chunks with
  | [] => inr (rec, results, word_timestamps)
  | chunk :: rest =>
      let! (accepted, rec) <- AcceptWaveform vosk rec chunk;
      if (accepted : bool) then
        let! (result, rec) <- Result vosk rec;
        feed_chunks rec rest (append_text result results)
                    (append_words result word_timestamps)
      else feed_chunks rec rest results word_timestamps
  end.

(** Feeding a list of chunks to a recognizer and finalizing: the fragments
    and the word entries, in order. *)
Definition recognize (rec : rec_state vosk) (chunks : list (list Byte.byte))
  : Exc (list string * list word_timestamp) :=
  let! (rec, results, word_timestamps) <- feed_chunks rec chunks [] [];
  let! final_result <- FinalResult vosk rec;
  inr (append_text final_result results, append_words final_result word_timestamps).

(** [' '.join(results).strip()] *)
Definition full_text_of (results : list string) : string :=
  Py.strip (Py.join " " results).

(** [min(0.8, 0.5 + (len(full_text.split()) * 0.05))] *)
Definition fallback_confidence (full_text : string) : float :=
  Py.min 0.8%float
         (0.5 + Py.float_of_nat (length (Py.split full_text)) * 0.05)%float.

(** [sum(w['conf'] for w in word_timestamps) / len(word_timestamps)] *)
Definition mean_confidence (word_timestamps : list word_timestamp) : float :=
  (Py.sum (map conf word_timestamps) / Py.float_of_nat (length word_timestamps))%float.

Definition avg_confidence (full_text : string) (word_timestamps : list word_timestamp)
  : float :=
  match word_timestamps with
  | [] => fallback_confidence full_text
  | _ => mean_confidence word_timestamps
  end.

(** The [try] block of [_transcribe_with_vosk], with the chunk size as a
    parameter. *)
Definition transcribe_chunked (chunk_size : nat) (audio_data : audio_data) (model : model)
  : Exc (string * float * list word_timestamp) :=
  let! rec <- KaldiRecognizer vosk model (sample_rate audio_data);
  let rec := SetWords vosk true rec in
  let audio_bytes := frame_data audio_data in
  let! (results, word_timestamps) <- recognize rec (chunks_of chunk_size audio_bytes);
  let full_text := full_text_of results in
  if Py.nonempty full_text
  then inr (full_text, avg_confidence full_text word_timestamps, word_timestamps)
  else inl (Exception "No speech detected in audio").

(** [except Exception as e: raise Exception(f"Vosk recognition error: {e}")] *)
Definition vosk_error (e : exn) : exn :=
  Exception ("Vosk recognition error: " ++ str e).

(** [chunk_size = 8000] *)
Definition chunk_size : nat := 8000.

Definition _transcribe_with_vosk (audio_data : audio_data) (model : model)
  : Exc (string * float * list word_timestamp) :=
  match transcribe_chunked chunk_size audio_data model with
  | inl e => inl (vosk_error e)
  | inr r => inr r
  end.

(** The text the streaming step yields for a list of chunks, and for a byte
    stream cut into chunks of [chunk_size] bytes, from a given recognizer
    state. *)
Definition text_of_chunks (rec : rec_state vosk) (chunks : list (list Byte.byte))
  : Exc string :=
  let! (results, _) <- recognize rec chunks;
  inr (full_text_of results).

Definition streamed_text (chunk_size : nat) (rec : rec_state vosk)
    (audio_bytes : list Byte.byte) : Exc string :=
  text_of_chunks rec (chunks_of chunk_size audio_bytes).

End Engine.

(** The test the service itself applies to tell the no-speech failure from
    other engine failures ([if "No speech detected" in str(e)]). *)
Definition is_no_speech (e : exn) : bool :=
  Py.contains "No speech detected" (str e).

(** ** Python values, dictionaries and paths *)

(** [speaker_segments] entries (only read by the report generator). *)
Record speaker_segment := SpeakerSegment {
  seg_speaker : string;
  seg_start_time : float;
  seg_end_time : float;
  seg_duration : float;
  seg_text : string;
  seg_confidence : float
}.

(** The values the service stores in its result dictionaries. *)
Inductive pyval : Type :=
| PNone
| PBool (b : bool)
| PInt (n : Z)
| PFloat (x : float)
| PStr (s : string)
| PList (l : list string)
| PWords (l : list word_timestamp)
| PSegments (l : list speaker_segment).

(** A [dict] with [str] keys. *)
Abbreviation dict := (gmap string pyval).

(** Truth value of a Python value. *)
Definition truthy (v : pyval) : bool :=
  match v with
  | PNone => false
  | PBool b => b
  | PInt n => negb (n =? 0)%Z
  | PFloat x => negb (PrimFloat.eqb x 0%float)
  | PStr s => Py.nonempty s
  | PList l => negb (bool_decide (l = []))
  | PWords l => match l with [] => false | _ => true end
  | PSegments l => match l with [] => false | _ => true end
  end.

(** [d.get(key)] and [d.get(key, default)] *)
Definition get (d : dict) (key : string) : pyval := default PNone (d !! key).
Definition get_or (d : dict) (key : string) (dflt : pyval) : pyval := default dflt (d !! key).

(** [key in d] *)
Definition has_key (d : dict) (key : string) : bool := bool_decide (is_Some (d !! key)).

(** Module-level dictionaries keep their insertion order: [keys()] is
    rendered in messages. *)
Definition assoc_get {V} (l : list (string * V)) (key : string) : option V :=
  snd <$> find (fun kv => String.eqb (fst kv) key) l.

Definition assoc_mem {V} (l : list (string * V)) (key : string) : bool :=
  existsb (fun kv => String.eqb (fst kv) key) l.

Definition keys {V} (l : list (string * V)) : list string := map fst l.

Definition SUPPORTED_FORMATS : list (string * string) :=
  [("mp3", "mp3"); ("wav", "wav"); ("aac", "aac"); ("m4a", "m4a"); ("ogg", "ogg");
   ("flac", "flac"); ("wma", "wma"); ("mp4", "mp4"); ("webm", "webm")].

Definition LANGUAGE_MAPPING : list (string * option string) :=
  [("spanish", Some "es-ES"); ("english", Some "en-US"); ("auto", None)].

Definition VOSK_MODELS : list (string * string) :=
  [("es-ES", "/app/models/vosk-model-small-es-0.42");
   ("en-US", "/app/models/vosk-model-small-en-us-0.15")].

Module Path.

(** [s.rfind(c)] *)
Fixpoint rfind_go (c : ascii) (s : string) (i : nat) (found : option nat) : option nat :=
  match s with
  | EmptyString => found
  | String d s' => rfind_go c s' (S i) (if Ascii.eqb c d then Some i else found)
  end.

Definition rfind (c : ascii) (s : string) : option nat := rfind_go c s 0 None.

(** [os.path.splitext]: the extension starts at the last dot of the last
    path component, leading dots of that component apart. *)
Definition splitext (p : string) : string * string :=
  match rfind "." p with
  | None => (p, "")
  | Some dotIndex =>
      let filenameIndex := match rfind "/" p with None => 0 | Some sepIndex => S sepIndex end in
      if (filenameIndex <=? dotIndex)%nat &&
         existsb (fun i => negb (bool_decide (String.get i p = Some "."%char)))
                 (seq filenameIndex (dotIndex - filenameIndex))
      then (String.substring 0 dotIndex p,
            String.substring dotIndex (String.length p - dotIndex) p)
      else (p, "")
  end.

(** [os.path.join(dir, name)] for a relative [name]. *)
Definition join (dir name : string) : string := dir ++ "/" ++ name.

End Path.

(** ** The world: the converter, the file system and the sources of names *)

(** A python-docx document: the blocks in the order they were added. *)
Inductive run : Type := Run (bold : bool) (text : string).

Inductive block : Type :=
| Heading (level : nat) (text : string)
| Paragraph (centered : bool) (runs : list run)
| Table (style : string) (rows : list (list string)).

Abbreviation document := (list block).

Inductive file : Type :=
| Blob (size : Z)
| Docx (doc : document)
| Directory.

Record world := World {
  models : gmap string model;          (* [converter.models] *)
  fs : gmap string file;               (* the files that exist *)
  uuids : nat;                         (* [uuid.uuid4()] draws so far *)
  loaded : list string;                (* the [vosk.Model(path)] loads, oldest first *)
  calls : list (string * string)       (* the [transcribe_audio] calls, oldest first *)
}.

Definition set_models (f : gmap string model -> gmap string model) (w : world) : world :=
  {| models := f (models w); fs := fs w; uuids := uuids w;
     loaded := loaded w; calls := calls w |}.

Definition set_fs (f : gmap string file -> gmap string file) (w : world) : world :=
  {| models := models w; fs := f (fs w); uuids := uuids w;
     loaded := loaded w; calls := calls w |}.

Definition set_uuids (f : nat -> nat) (w : world) : world :=
  {| models := models w; fs := fs w; uuids := f (uuids w);
     loaded := loaded w; calls := calls w |}.

Definition set_loaded (f : list string -> list string) (w : world) : world :=
  {| models := models w; fs := fs w; uuids := uuids w;
     loaded := f (loaded w); calls := calls w |}.

Definition set_calls (f : list (string * string) -> list (string * string)) (w : world) : world :=
  {| models := models w; fs := fs w; uuids := uuids w;
     loaded := loaded w; calls := f (calls w) |}.

(** [pydub.AudioSegment]: the decoded samples. *)
Abbreviation AudioSegment := (list Byte.byte).

(** The collaborators.  [None] from an error oracle means the call went
    through. *)
Record env := Env {
  vosk : recognizer;
  vosk_Model : string -> option exn;                 (* [vosk.Model(path)] *)
  gettempdir : string;                               (* [tempfile.gettempdir()] *)
  uuid4 : nat -> string;                             (* the n-th [uuid.uuid4()] *)
  copy2 : string -> string -> option exn;            (* [shutil.copy2] *)
  from_file : string -> option string -> Exc AudioSegment;  (* [AudioSegment.from_file] *)
  export : AudioSegment -> string -> option exn;     (* [audio.export(path, format="wav")] *)
  AudioFile : string -> Exc audio_data;              (* [sr.AudioFile], noise adjustment, [record] *)
  remove : string -> option exn;                     (* [os.remove] on an existing file *)
  now : string;                                      (* [datetime.now().strftime(...)] *)
  format_1f : float -> string;                       (* [f"{x:.1f}"] *)
  format_2f : float -> string;                       (* [f"{x:.2f}"] *)
  save : document -> string -> option exn;           (* [doc.save(path)] *)
  repr : pyval -> string;                            (* [str(v)] of a number or a list *)
  secure_filename : string -> string;                (* [werkzeug.utils.secure_filename] *)
  file_save : string -> option exn;                  (* [file.save(path)] of the upload *)
  UPLOAD_FOLDER : string                             (* [app.config['UPLOAD_FOLDER']] *)
}.

(** ** Statements: state, early return, exceptions *)

Inductive outcome (R A : Type) : Type :=
| Normal (a : A)
| Returns (r : R)
| Raises (e : exn).
Arguments Normal {R A} a.
Arguments Returns {R A} r.
Arguments Raises {R A} e.

(** A block of statements of a function returning [R], over the state [St]. *)
Definition M (St R A : Type) : Type := St -> outcome R A * St.

Section Statements.

Context {St R : Type}.

Definition pure {A} (a : A) : M St R A := fun s => (Normal a, s).

Definition bind {A B} (m : M St R A) (k : A -> M St R B) : M St R B :=
  fun s =>
    match m s with
    | (Normal a, s') => k a s'
    | (Returns r, s') => (Returns r, s')
    | (Raises e, s') => (Raises e, s')
    end.

(** [return r] *)
Definition return_ {A} (r : R) : M St R A := fun s => (Returns r, s).

(** [raise e] *)
Definition raise {A} (e : exn) : M St R A := fun s => (Raises e, s).

(** [try: body except Exception as e: handler]: the handler runs in the
    state the body left. *)
Definition try_except {A} (body : M St R A) (handler : exn -> M St R A) : M St R A :=
  fun s =>
    match body s with
    | (Raises e, s') => handler e s'
    | r => r
    end.

(** [try: body finally: final] *)
Definition try_finally {A} (body : M St R A) (final : M St R unit) : M St R A :=
  fun s =>
    let '(o, s') := body s in
    match final s' with
    | (Normal _, s'') => (o, s'')
    | (Returns r, s'') => (Returns r, s'')
    | (Raises e, s'') => (Raises e, s'')
    end.

Definition gets {A} (f : St -> A) : M St R A := fun s => (Normal (f s), s).

Definition modify (f : St -> St) : M St R unit := fun s => (Normal tt, f s).

(** [if c: body] *)
Definition when (c : bool) (body : M St R unit) : M St R unit :=
  if c then body else pure tt.

(** A call that can only raise. *)
Definition lift {A} (m : Exc A) : M St R A :=
  fun s => match m with inl e => (Raises e, s) | inr a => (Normal a, s) end.

(** An effect that can only raise. *)
Definition check (m : option exn) : M St R unit :=
  fun s => match m with Some e => (Raises e, s) | None => (Normal tt, s) end.

End Statements.

#[global] Instance M_ret {St R} : MRet (M St R) := @pure St R.
#[global] Instance M_bind {St R} : MBind (M St R) := fun A B k m => bind m k.

(** A function of the service: from the world to a value or an exception. *)
Definition Fn (B : Type) : Type := world -> Exc B * world.

(** [def f(...): body], with the function's mutable locals [L]; a body is
    typed so that it cannot fall off its end. *)
Definition def {L R} (locals : L) (body : M (L * world) R Empty_set) : Fn R :=
  fun w =>
    match body (locals, w) with
    | (Normal a, _) => match a with end
    | (Returns r, (_, w')) => (inr r, w')
    | (Raises e, (_, w')) => (inl e, w')
    end.

(** Calling a function from a block. *)
Definition call {L R B} (f : Fn B) : M (L * world) R B :=
  fun '(l, w) =>
    match f w with
    | (inr b, w') => (Normal b, (l, w'))
    | (inl e, w') => (Raises e, (l, w'))
    end.

(** Reading and updating the world or the locals from a block. *)
Definition world_gets {L R A} (f : world -> A) : M (L * world) R A := gets (fun s => f (snd s)).
Definition world_modify {L R} (f : world -> world) : M (L * world) R unit :=
  modify (fun s => (fst s, f (snd s))).
Definition locals_get {L R} : M (L * world) R L := gets fst.
Definition locals_modify {L R} (f : L -> L) : M (L * world) R unit :=
  modify (fun s => (f (fst s), snd s)).

(** [os.path.exists(path)] *)
Definition exists_ {L R} (path : string) : M (L * world) R bool :=
  world_gets (fun w => bool_decide (is_Some (fs w !! path))).

(** [uuid.uuid4()] *)
Definition draw_uuid {L R} (E : env) : M (L * world) R string :=
  n ← world_gets uuids;
  world_modify (set_uuids S);;
  mret (uuid4 E n).

(** [os.remove(path)]: a missing file raises, otherwise the collaborator
    decides. *)
Definition os_remove {L R} (E : env) (path : string) : M (L * world) R unit :=
  present ← exists_ path;
  if negb present
  then raise (Exception ("[Errno 2] No such file or directory: '" ++ path ++ "'"))
  else check (remove E path);;
       world_modify (set_fs (delete path)).

(** [d[key] = v] on the function's result dictionary. *)
Definition setitem {R} (key : string) (v : pyval) : M (dict * world) R unit :=
  locals_modify (insert key v).

(** [d[key]] *)
Definition getitem {R} (key : string) : M (dict * world) R pyval :=
  d ← locals_get;
  match (d : dict) !! key with
  | Some v => mret v
  | None => raise (Exception ("'" ++ key ++ "'"))
  end.

(** ** The converter ([AudioToTextConverter]) *)

(** [vosk.Model(model_path)]: every construction is recorded, and the object
    it yields is identified by its position in that record. *)
Definition new_Model {L R} (E : env) (model_path : string) : M (L * world) R model :=
  n ← world_gets (fun w => length (loaded w));
  world_modify (set_loaded (fun l => (l ++ [model_path])%list));;
  check (vosk_Model E model_path);;
  mret (Model n model_path).

Definition _get_vosk_model (E : env) (lang_code : string) : Fn model :=
  def tt (
    when (negb (assoc_mem VOSK_MODELS lang_code))
      (raise (Exception ("No Vosk model available for language " ++ lang_code)));;
    cached ← world_gets (fun w => bool_decide (is_Some (models w !! lang_code)));
    when (negb cached) (
      match assoc_get VOSK_MODELS lang_code with
      | None => raise (Exception ("'" ++ lang_code ++ "'"))
      | Some model_path =>
          present ← exists_ model_path;
          when (negb present) (raise (Exception ("Model path not found: " ++ model_path)));;
          m ← new_Model E model_path;
          world_modify (set_models (insert lang_code m))
      end);;
    found ← world_gets (fun w => models w !! lang_code);
    match found with
    | Some m => return_ m
    | None => raise (Exception ("'" ++ lang_code ++ "'"))
    end).

Definition convert_audio_to_wav (E : env) (input_path output_path : string) : Fn bool :=
  def tt (
    try_except (
      let file_ext := Py.lstrip_char "." (Py.lower (snd (Path.splitext input_path))) in
      if String.eqb file_ext "wav" then
        source ← world_gets (fun w => fs w !! input_path);
        match source with
        | None => raise (Exception ("[Errno 2] No such file or directory: '" ++ input_path ++ "'"))
        | Some f =>
            check (copy2 E input_path output_path);;
            world_modify (set_fs (insert output_path f));;
            return_ true
        end
      else
        audio ← (if bool_decide (file_ext ∈ ["mp3"; "aac"; "m4a"; "ogg"; "flac"; "wma"; "mp4"; "webm"])
                 then lift (from_file E input_path (Some file_ext))
                 else lift (from_file E input_path None));
        check (export E audio output_path);;
        world_modify (set_fs (insert output_path (Blob (44 + Z.of_nat (length audio)))));;
        return_ true)
      (fun e => return_ false)).

Definition initial_result : dict :=
  <["success" := PBool false]> (<["text" := PStr ""]> (<["confidence" := PFloat 0]>
  (<["language_detected" := PNone]> (<["error" := PNone]> ∅)))).

Definition conversion_failed : string := "Failed to convert audio to WAV format".

Definition unsupported_language (language : string) : string :=
  "Language '" ++ language ++ "' is not supported. Supported languages: "
  ++ Py.join ", " (keys LANGUAGE_MAPPING).

Definition other_languages_note : string :=
  "For other languages, consider using online speech recognition services.".

Definition no_speech_hint : string :=
  "No speech detected in audio. Try speaking more clearly or check if the audio contains speech.".

Definition recognition_failed (e : exn) : string :=
  "Speech recognition failed: " ++ str e.

(** Lines 175-180: the path of the WAV file to read; a failed conversion
    returns the result at once. *)
Definition convert_if_needed (E : env) (audio_path : string) : M (dict * world) dict string :=
  if negb (Py.endswith (Py.lower audio_path) ".wav") then
    u ← draw_uuid E;
    let wav_path := Path.join (gettempdir E) (u ++ ".wav") in
    converted ← call (convert_audio_to_wav E audio_path wav_path);
    if negb converted then
      setitem "error" (PStr conversion_failed);;
      result ← locals_get;
      return_ result
    else mret wav_path
  else mret audio_path.

(** Lines 189-218: the language check and the recognition. *)
Definition recognize_speech (E : env) (language : string) (audio_data : audio_data)
  : M (dict * world) dict unit :=
  let lang_code := mjoin (assoc_get LANGUAGE_MAPPING (Py.lower language)) in
  if negb (assoc_mem LANGUAGE_MAPPING (Py.lower language)) then
    setitem "error" (PStr (unsupported_language language));;
    setitem "supported_languages" (PList (keys LANGUAGE_MAPPING));;
    setitem "note" (PStr other_languages_note)
  else
    try_except (
      let lang_code := default "en-US" lang_code in
      model ← call (_get_vosk_model E lang_code);
      '(text, confidence, word_timestamps) ← lift (_transcribe_with_vosk (vosk E) audio_data model);
      if Py.nonempty text && Py.nonempty (Py.strip text) then
        setitem "success" (PBool true);;
        setitem "text" (PStr (Py.strip text));;
        setitem "confidence" (PFloat confidence);;
        setitem "service_used" (PStr "vosk");;
        setitem "language_detected" (PStr lang_code);;
        setitem "note" (PStr ("Transcribed using Vosk model for " ++ lang_code));;
        setitem "word_timestamps" (PWords word_timestamps)
      else
        setitem "error" (PStr no_speech_hint))
      (fun e => setitem "error" (PStr (recognition_failed e))).

(** Lines 220-226: the generic error and the removal of the temporary file. *)
Definition finish (E : env) (audio_path wav_path : string) : M (dict * world) dict unit :=
  succeeded ← getitem "success";
  result ← locals_get;
  when (negb (truthy succeeded) && negb (has_key result "error"))
    (setitem "error" (PStr "All speech recognition services failed"));;
  present ← exists_ wav_path;
  when (negb (String.eqb wav_path audio_path) && present) (os_remove E wav_path).

Definition transcribe_audio (E : env) (audio_path language : string) : Fn dict :=
  def initial_result (
    world_modify (set_calls (fun l => (l ++ [(audio_path, language)])%list));;
    try_except (
      wav_path ← convert_if_needed E audio_path;
      audio_data ← lift (AudioFile E wav_path);
      recognize_speech E language audio_data;;
      finish E audio_path wav_path)
      (fun e => setitem "error" (PStr (str e)));;
    result ← locals_get;
    return_ result).

(** The lines after the unconditional [return]: the class has no
    [_perform_speaker_diarization] (it is commented out), so the call raises
    at once, and the handler then fails on the unbound name [result]. *)
Definition speaker_transcription : M (unit * world) dict Empty_set :=
  try_except
    (raise (Exception "'AudioToTextConverter' object has no attribute '_perform_speaker_diarization'"))
    (fun e => raise (Exception "name 'result' is not defined")).

Definition _transcribe_with_speakers (E : env) (audio_path language : string) : Fn dict :=
  def tt (
    (result ← call (transcribe_audio E audio_path language);
     return_ (A := unit) result);;
    speaker_transcription).

(** ** The report ([create_word_document]) *)

(** [str(v)] *)
Definition py_str (E : env) (v : pyval) : string :=
  match v with
  | PStr s => s
  | PNone => "None"
  | PBool true => "True"
  | PBool false => "False"
  | _ => repr E v
  end.

(** The number a format specification [:.2f] or a division is applied to. *)
Definition as_number (v : pyval) : Exc float :=
  match v with
  | PFloat x => inr x
  | PInt n => inr (PrimFloat.of_uint63 (Uint63.of_Z n))
  | PBool b => inr (if b then 1%float else 0%float)
  | _ => inl (Exception "unsupported format string passed to __format__")
  end.

(** The text python-docx accepts for a run: a [str], or nothing. *)
Definition as_text (v : pyval) : Exc string :=
  match v with
  | PStr s => inr s
  | PNone => inr ""
  | _ => inl (Exception "Argument must be bytes or unicode")
  end.

(** [doc.add_paragraph(text)]: an empty text adds no run. *)
Definition paragraph (text : string) : block :=
  Paragraph false (if Py.nonempty text then [Run false text] else []).

Definition metadata_table (E : env) (transcription_result : dict) (original_filename : string)
  : Exc block :=
  let! confidence <- as_number (get_or transcription_result "confidence" (PInt 0));
  let! file_size <- as_number (get_or transcription_result "file_size" (PInt 0));
  inr (Table "Table Grid"
    [ ["Property"; "Value"];
      ["Original File"; original_filename];
      ["Transcription Date"; now E];
      ["Service Used"; py_str E (get_or transcription_result "service_used" (PStr "Unknown"))];
      ["Language Detected";
       py_str E (get_or transcription_result "language_detected" (PStr "Unknown"))];
      ["Confidence Score"; format_2f E confidence];
      ["File Size"; format_2f E (file_size / 1024 / 1024)%float ++ " MB"] ]).

Definition speaker_block (E : env) (segment : speaker_segment) : list block :=
  [ Paragraph false
      [ Run true (seg_speaker segment ++ " ");
        Run false ("(" ++ format_1f E (seg_start_time segment) ++ "s - "
                   ++ format_1f E (seg_end_time segment) ++ "s, "
                   ++ format_1f E (seg_duration segment) ++ "s)") ];
    paragraph (seg_text segment);
    paragraph ("Confidence: " ++ format_2f E (seg_confidence segment));
    Paragraph false [] ].

Definition speaker_row (E : env) (segment : speaker_segment) : list string :=
  [ seg_speaker segment;
    format_1f E (seg_duration segment);
    pretty (length (Py.split (seg_text segment)));
    format_2f E (seg_confidence segment) ].

Definition speaker_blocks (E : env) (speaker_segments : list speaker_segment) : list block :=
  ([Heading 2 "Speaker-Based Transcription"]
   ++ concat (map (speaker_block E) speaker_segments)
   ++ [ Heading 2 "Speaker Summary";
        Table "Table Grid"
          (["Speaker"; "Duration (s)"; "Words"; "Avg Confidence"]
           :: map (speaker_row E) speaker_segments) ])%list.

(** The transcript of a successful result (lines 433-475). *)
Definition transcript_blocks (E : env) (transcription_result : dict) : Exc (list block) :=
  let! body <-
    match get_or transcription_result "speaker_segments" (PList []) with
    | PSegments (segment :: rest) => inr (speaker_blocks E (segment :: rest))
    | v => if truthy v
           then inl (Exception "string indices must be integers")
           else let! text <- as_text (get_or transcription_result "text" (PStr ""));
                inr [paragraph text]
    end;
  let note := get transcription_result "note" in
  inr (body ++ (if truthy note then [paragraph ("Note: " ++ py_str E note)] else []))%list.

(** The failure notice (lines 477-480). *)
Definition failure_notice (transcription_result : dict) : Exc (list block) :=
  let! error <- as_text (get_or transcription_result "error" (PStr "Unknown error"));
  inr [Paragraph false [Run true "Transcription Failed: "; Run false error]].

Definition footer : list block :=
  [ Paragraph false [];
    Paragraph true [Run false "Generated by Audio to Text Conversion Service (Offline)"] ].

(** The blocks of the document, in the order the function adds them. *)
Definition build_document (E : env) (transcription_result : dict) (original_filename : string)
  : Exc document :=
  let! table <- metadata_table E transcription_result original_filename;
  let! transcription <-
    (if truthy (get transcription_result "success")
     then transcript_blocks E transcription_result
     else failure_notice transcription_result);
  inr ([ Heading 0 "Audio Transcription Report";
         Heading 1 "Document Information";
         table;
         Heading 1 "Transcription" ] ++ transcription ++ footer)%list.

Definition create_word_document (E : env) (transcription_result : dict)
    (original_filename : string) : Fn string :=
  def tt (
    try_except (
      doc ← lift (build_document E transcription_result original_filename);
      u ← draw_uuid E;
      let temp_filename := "transcription_" ++ u ++ ".docx" in
      let temp_path := Path.join (gettempdir E) temp_filename in
      check (save E doc temp_path);;
      world_modify (set_fs (insert temp_path (Docx doc)));;
      return_ temp_path)
      (fun e => raise (Exception ("Failed to create Word document: " ++ str e)))).

(** ** The HTTP boundary ([POST /api/convert]) *)

(** An uploaded file: its name and the offset [file.tell()] reports at its
    end. *)
Record upload := Upload {
  filename : string;
  size : Z
}.

(** The parsed request; reading [request.files] may raise (the framework
    refuses a body it cannot or will not parse). *)
Record request := Request {
  files : Exc (gmap string upload);
  form : gmap string string
}.

Inductive response : Type :=
| Json (status : Z) (error : string)                         (* [jsonify({'error': ...}), status] *)
| Attachment (path download_name mimetype : string).         (* [send_file(...)] *)

(** [os.path.getsize(path)] *)
Definition getsize {L R} (path : string) : M (L * world) R Z :=
  f ← world_gets (fun w => fs w !! path);
  match f with
  | Some (Blob n) => mret n
  | Some _ => mret 0%Z
  | None => raise (Exception ("[Errno 2] No such file or directory: '" ++ path ++ "'"))
  end.

Definition file_too_large : string :=
  "File too large. Maximum size is 25MB. Please use a smaller audio file.".

Definition docx_mimetype : string :=
  "application/vnd.openxmlformats-officedocument.wordprocessingml.document".

(** Lines 541-573: the upload is saved, transcribed and reported; the saved
    upload is removed whatever happens. *)
Definition convert_saved (E : env) (file : upload) (language filename file_ext : string)
  : M (unit * world) response Empty_set :=
  u ← draw_uuid E;
  let temp_filename := u ++ "." ++ file_ext in
  let temp_path := Path.join (UPLOAD_FOLDER E) temp_filename in
  check (file_save E temp_path);;
  world_modify (set_fs (insert temp_path (Blob (size file))));;
  try_finally (
    result ← call (transcribe_audio E temp_path language);
    let result := <["filename" := PStr filename]> (result : dict) in
    file_size ← getsize temp_path;
    let result := <["file_size" := PInt file_size]> result in
    let result := <["language_requested" := PStr language]> result in
    doc_path ← call (create_word_document E result filename);
    let base_name := fst (Path.splitext filename) in
    let download_filename := base_name ++ "_transcription.docx" in
    return_ (Attachment doc_path download_filename docx_mimetype))
    (present ← exists_ temp_path;
     when present (os_remove E temp_path)).

Definition convert_audio (E : env) (request : request) : Fn response :=
  def tt (
    try_except (
      request_files ← lift (files request);
      match (request_files : gmap string upload) !! "audio_file" with
      | None => return_ (Json 400 "No audio file provided")
      | Some file =>
          if String.eqb (filename file) "" then return_ (Json 400 "No file selected")
          else
            let file_size := size file in
            if (25 * 1024 * 1024 <? file_size)%Z then return_ (Json 400 file_too_large)
            else
              let language := default "auto" (form request !! "language") in
              let filename := secure_filename E (filename file) in
              let file_ext := Py.lstrip_char "." (Py.lower (snd (Path.splitext filename))) in
              if negb (assoc_mem SUPPORTED_FORMATS file_ext)
              then return_ (Json 400 ("Unsupported file format: " ++ file_ext
                                      ++ ". Supported formats: "
                                      ++ Py.join ", " (keys SUPPORTED_FORMATS)))
              else convert_saved E file language filename file_ext
      end)
      (fun e => return_ (Json 500 (str e)))).

(** ** The other endpoints *)

(** [GET /api/formats] *)
Record formats_listing := FormatsListing {
  formats : list string;
  languages : list string
}.

Definition get_supported_formats : formats_listing :=
  {| formats := keys SUPPORTED_FORMATS;
     languages := keys LANGUAGE_MAPPING |}.

(** [GET /api/health] *)
Record health := Health {
  health_status : string;
  health_service : string;
  supported_formats : nat;
  supported_languages : nat
}.

Definition health_check : health :=
  {| health_status := "healthy";
     health_service := "audio-to-text-converter";
     supported_formats := length SUPPORTED_FORMATS;
     supported_languages := length LANGUAGE_MAPPING |}.

(** [GET /api/test-offline]: the JSON object it answers with. *)
Record offline_report := OfflineReport {
  status : string;
  message : string;
  available_languages : list string
}.

Definition offline (status message : string) : offline_report :=
  {| status := status;
     message := message;
     available_languages := keys LANGUAGE_MAPPING |}.

(** [text, confidence = value] for the triple [_transcribe_with_vosk]
    returns: three values do not unpack into two names. *)
Definition unpack_two (value : string * float * list word_timestamp) : Exc (string * float) :=
  inl (Exception "too many values to unpack (expected 2)").

(** The double quote character. *)
Definition quote : ascii := ascii_of_nat 34.

Definition vosk_works : string :=
  "Vosk is working correctly (no speech detected in silence)".

(** [recorded] is what speech_recognition reads back from the in-memory WAV
    file of 16000 zero bytes the function writes. *)
Definition test_offline_recognition (E : env) (recorded : Exc audio_data) : Fn offline_report :=
  def tt (
    try_except (
      model ← try_except (call (_get_vosk_model E "en-US"))
                (fun e => return_ (offline "error" ("Failed to load English model: " ++ str e)));
      audio_data ← lift recorded;
      try_except (
        value ← lift (_transcribe_with_vosk (vosk E) audio_data model);
        '(text, confidence) ← lift (unpack_two value);
        if negb (Py.nonempty text) || String.eqb (Py.strip text) ""
        then return_ (offline "success" vosk_works)
        else return_ (offline "warning"
                        ("Vosk detected speech in silence: " ++ String quote text
                         ++ String quote "")))
        (fun e =>
           if Py.contains "No speech detected" (str e)
           then return_ (offline "success" vosk_works)
           else return_ (offline "error" ("Vosk error: " ++ str e))))
      (fun e => return_ (offline "error" ("Test failed: " ++ str e)))).

(** ** The results [transcribe_audio] can build *)

(** The seven assignments of a successful transcription (lines 207-213). *)
Definition transcribed (lang_code text : string) (confidence : float)
    (word_timestamps : list word_timestamp) (d : dict) : dict :=
  <["word_timestamps" := PWords word_timestamps]>
  (<["note" := PStr ("Transcribed using Vosk model for " ++ lang_code)]>
  (<["language_detected" := PStr lang_code]>
  (<["service_used" := PStr "vosk"]>
  (<["confidence" := PFloat confidence]>
  (<["text" := PStr (Py.strip text)]>
  (<["success" := PBool true]> d)))))).

(** The three assignments for an unsupported language (lines 194-196). *)
Definition rejected (language : string) (d : dict) : dict :=
  <["note" := PStr other_languages_note]>
  (<["supported_languages" := PList (keys LANGUAGE_MAPPING)]>
  (<["error" := PStr (unsupported_language language)]> d)).

(** [lang_code] as the recognition uses it: the mapped code, English for
    [auto]. *)
Definition lang_code_of (language : string) : string :=
  default "en-US" (mjoin (assoc_get LANGUAGE_MAPPING (Py.lower language))).

(** The world once the call is under way. *)
Definition entered (audio_path language : string) (w : world) : world :=
  set_calls (fun l => (l ++ [(audio_path, language)])%list) w.

(** The ways the recognition block ends, from the world [w1]: with which
    dictionary and in which world. *)
Inductive recognized (E : env) (language : string) (audio : audio_data) (w1 : world)
  : dict -> world -> Prop :=
| language_rejected :
    assoc_mem LANGUAGE_MAPPING (Py.lower language) = false ->
    recognized E language audio w1 (rejected language initial_result) w1
| model_failed e w2 :
    assoc_mem LANGUAGE_MAPPING (Py.lower language) = true ->
    _get_vosk_model E (lang_code_of language) w1 = (inl e, w2) ->
    recognized E language audio w1
      (<["error" := PStr (recognition_failed e)]> initial_result) w2
| engine_failed m e w2 :
    assoc_mem LANGUAGE_MAPPING (Py.lower language) = true ->
    _get_vosk_model E (lang_code_of language) w1 = (inr m, w2) ->
    _transcribe_with_vosk (vosk E) audio m = inl e ->
    recognized E language audio w1
      (<["error" := PStr (recognition_failed e)]> initial_result) w2
| speech_transcribed m text confidence wts w2 :
    assoc_mem LANGUAGE_MAPPING (Py.lower language) = true ->
    _get_vosk_model E (lang_code_of language) w1 = (inr m, w2) ->
    _transcribe_with_vosk (vosk E) audio m = inr (text, confidence, wts) ->
    text <> "" ->
    Py.strip text = text ->
    recognized E language audio w1
      (transcribed (lang_code_of language) text confidence wts initial_result) w2.

(** The ways [transcribe_audio] ends, with the dictionary it returns and the
    world it leaves. *)
Inductive transcription (E : env) (audio_path language : string) (w : world)
  : dict -> world -> Prop :=
| conversion_refused s1 r :
    convert_if_needed E audio_path (initial_result, entered audio_path language w)
      = (Returns r, s1) ->
    r = <["error" := PStr conversion_failed]> initial_result ->
    transcription E audio_path language w r (snd s1)
| audio_unreadable wav_path w1 e :
    convert_if_needed E audio_path (initial_result, entered audio_path language w)
      = (Normal wav_path, (initial_result, w1)) ->
    AudioFile E wav_path = inl e ->
    transcription E audio_path language w
      (<["error" := PStr (str e)]> initial_result) w1
| pipeline_ran wav_path w1 audio d2 w2 :
    convert_if_needed E audio_path (initial_result, entered audio_path language w)
      = (Normal wav_path, (initial_result, w1)) ->
    AudioFile E wav_path = inr audio ->
    recognized E language audio w1 d2 w2 ->
    (wav_path = audio_path \/ fs w2 !! wav_path = None \/ remove E wav_path = None) ->
    transcription E audio_path language w d2
      (if negb (String.eqb wav_path audio_path) && bool_decide (is_Some (fs w2 !! wav_path))
       then set_fs (delete wav_path) w2 else w2)
| cleanup_failed wav_path w1 audio d2 w2 e :
    convert_if_needed E audio_path (initial_result, entered audio_path language w)
      = (Normal wav_path, (initial_result, w1)) ->
    AudioFile E wav_path = inr audio ->
    recognized E language audio w1 d2 w2 ->
    wav_path <> audio_path ->
    is_Some (fs w2 !! wav_path) ->
    remove E wav_path = Some e ->
    transcription E audio_path language w (<["error" := PStr (str e)]> d2) w2.

(** Every stage of the pipeline went through: the audio was converted if
    needed and read, the language is a supported one, its model was
    obtained, and the engine returned a non-empty text. *)
Definition pipeline_succeeds (E : env) (audio_path language : string) (w : world) : Prop :=
  exists wav_path w1 audio m w2 text confidence wts,
    convert_if_needed E audio_path (initial_result, entered audio_path language w)
      = (Normal wav_path, (initial_result, w1)) /\
    AudioFile E wav_path = inr audio /\
    assoc_mem LANGUAGE_MAPPING (Py.lower language) = true /\
    _get_vosk_model E (lang_code_of language) w1 = (inr m, w2) /\
    _transcribe_with_vosk (vosk E) audio m = inr (text, confidence, wts) /\
    text <> "".

(** A recognizer state is split-invariant when cutting one chunk of the
    stream in two never changes the recognised text. *)
Definition split_invariant (vosk : recognizer) (rec : rec_state vosk) : Prop :=
  forall (before after : list (list Byte.byte)) (a b : list Byte.byte),
    a <> [] -> b <> [] ->
    text_of_chunks vosk rec (before ++ (a ++ b) :: after)%list =
    text_of_chunks vosk rec (before ++ a :: b :: after)%list.

(** ** Names for the handler's files and blocks *)

(** The path [create_word_document] saves the report under. *)
Definition report_path (E : env) (w : world) : string :=
  Path.join (gettempdir E) ("transcription_" ++ uuid4 E (uuids w) ++ ".docx").

(** The path [convert_audio] saves the upload under. *)
Definition upload_path (E : env) (w : world) (file_ext : string) : string :=
  Path.join (UPLOAD_FOLDER E) (uuid4 E (uuids w) ++ "." ++ file_ext).

(** The keys [convert_audio] adds to the result before the report is made
    (lines 551-553). *)
Definition with_metadata (filename language : string) (file_size : Z) (result : dict) : dict :=
  <["language_requested" := PStr language]>
    (<["file_size" := PInt file_size]> (<["filename" := PStr filename]> result)).

(** What [getsize] reports for a file. *)
Definition size_of (f : file) : Z :=
  match f with Blob n => n | _ => 0%Z end.

(** The statements of the [try] block of lines 546-568, from the result of
    the transcription on. *)
Definition report_upload (E : env) (temp_path language filename : string) (result : dict)
  : M (unit * world) response Empty_set :=
  let result := <["filename" := PStr filename]> result in
  file_size ← getsize temp_path;
  let result := <["file_size" := PInt file_size]> result in
  let result := <["language_requested" := PStr language]> result in
  doc_path ← call (create_word_document E result filename);
  let base_name := fst (Path.splitext filename) in
  let download_filename := base_name ++ "_transcription.docx" in
  return_ (Attachment doc_path download_filename docx_mimetype).

(** The [finally] block of lines 570-573. *)
Definition remove_upload (E : env) (temp_path : string) : M (unit * world) response unit :=
  present ← exists_ temp_path;
  when present (os_remove E temp_path).

(** * Properties *)

(** ** Sample collaborators *)

Module Samples.

(** A decoder that closes an utterance with the text [word] at every chunk
    it is fed, and reports no word list. *)
Definition per_chunk : recognizer :=
  {| rec_state := unit;
     KaldiRecognizer := fun _ _ => inr tt;
     SetWords := fun _ rec => rec;
     AcceptWaveform := fun rec _ => inr (true, rec);
     Result := fun rec => inr (Hyp (Some "word") None, rec);
     FinalResult := fun _ => inr (Hyp (Some "") None) |}.

(** A decoder that buffers the audio and decides at the end of the stream:
    it hears [speech] when some sample byte is not zero. *)
Definition buffering : recognizer :=
  {| rec_state := list Byte.byte;
     KaldiRecognizer := fun _ _ => inr [];
     SetWords := fun _ rec => rec;
     AcceptWaveform := fun rec chunk => inr (false, (rec ++ chunk)%list);
     Result := fun rec => inr (Hyp None None, rec);
     FinalResult := fun rec =>
       inr (Hyp (Some (if forallb (Byte.eqb Byte.x00) rec then "" else "speech")) None) |}.

Definition silence : audio_data := AudioData [Byte.x00; Byte.x00] 16000 2.
Definition speech : audio_data := AudioData [Byte.x01; Byte.x00; Byte.x02] 16000 2.
Definition english_path : string := "/app/models/vosk-model-small-en-us-0.15".
Definition english_model : model := Model 0 english_path.

(** Collaborators that fail at most where pydub decodes ([decoded]) or where
    speech_recognition reads the WAV file ([read]). *)
Definition collaborators (vosk : recognizer) (decoded : Exc AudioSegment)
    (read : Exc audio_data) : env :=
  {| vosk := vosk;
     vosk_Model := fun _ => None;
     gettempdir := "/tmp";
     uuid4 := fun n => "uuid-" ++ pretty n;
     copy2 := fun _ _ => None;
     from_file := fun _ _ => decoded;
     export := fun _ _ => None;
     AudioFile := fun _ => read;
     remove := fun _ => None;
     now := "2024-01-01 00:00:00";
     format_1f := fun _ => "0.0";
     format_2f := fun _ => "0.00";
     save := fun _ _ => None;
     repr := fun _ => "?";
     secure_filename := fun name => name;
     file_save := fun _ => None;
     UPLOAD_FOLDER := "/uploads" |}.

(** Collaborators that never fail: every audio file decodes to [audio], and
    [vosk] is the decoder. *)
Definition service (vosk : recognizer) (audio : audio_data) : env :=
  collaborators vosk (inr (frame_data audio)) (inr audio).

(** pydub cannot decode the input. *)
Definition undecodable : env :=
  collaborators buffering (inl (Exception "Decoding failed. ffmpeg returned error code: 1"))
                (inr speech).

(** pydub decodes the input (six channels, say) and writes the WAV file, but
    speech_recognition refuses it. *)
Definition unreadable : env :=
  collaborators buffering (inr (frame_data speech))
                (inl (Exception "Audio must be mono or stereo")).

(** A fresh process on a machine that has the English model only. *)
Definition fresh : world :=
  {| models := ∅;
     fs := {[ english_path := Directory ]};
     uuids := 0;
     loaded := [];
     calls := [] |}.

End Samples.

(** ** Running blocks *)

(** Unfolds the statement combinators, leaving the collaborators' answers
    and the dictionary operations as they are. *)
Ltac run :=
  cbv beta iota zeta delta
    [def call mbind M_bind mret M_ret bind pure when world_gets world_modify
     locals_get locals_modify gets modify raise return_ lift check try_except
     try_finally exists_ fst snd];
  cbn [negb andb].

Tactic Notation "run" "in" hyp(H) :=
  cbv beta iota zeta delta
    [def call mbind M_bind mret M_ret bind pure when world_gets world_modify
     locals_get locals_modify gets modify raise return_ lift check try_except
     try_finally exists_ fst snd] in H;
  cbn [negb andb] in H.

(** Closing tactics for the case analyses below. *)
Ltac conversion_fails :=
  eexists false, _; split; [reflexivity|]; split; [intros _; reflexivity|discriminate].

Ltac answers := eexists _, _; split; [reflexivity|]; cbn; solve [auto].

Ltac settle :=
  first [ reflexivity | left; reflexivity | right; reflexivity
        | intros; congruence ].


(** ** Strings *)

Section StringFacts.

Lemma nonempty_true (s : string) : Py.nonempty s = true <-> s <> "".
Proof. destruct s; simpl; split; intros; congruence. Qed.

Lemma nonempty_false (s : string) : Py.nonempty s = false <-> s = "".
Proof. destruct s; simpl; split; intros; congruence. Qed.

Lemma rstrip_cons c s :
  Py.rstrip (String c s) =
  match Py.rstrip s with
  | EmptyString => if Py.isspace c then EmptyString else String c EmptyString
  | r => String c r
  end.
Proof. reflexivity. Qed.

Lemma rstrip_idemp s : Py.rstrip (Py.rstrip s) = Py.rstrip s.
Proof.
  induction s as [|c s IH]; trivial.
  rewrite rstrip_cons. destruct (Py.rstrip s) as [|d r] eqn:Hs.
  - destruct (Py.isspace c) eqn:Hc; trivial.
    rewrite rstrip_cons. simpl. rewrite Hc. reflexivity.
  - rewrite rstrip_cons, IH. reflexivity.
Qed.

Lemma lstrip_rstrip_lstrip s :
  Py.lstrip (Py.rstrip (Py.lstrip s)) = Py.rstrip (Py.lstrip s).
Proof.
  induction s as [|c s IH]; trivial.
  simpl Py.lstrip at 2 3. destruct (Py.isspace c) eqn:Hc; trivial.
  rewrite rstrip_cons.
  destruct (Py.rstrip s); [rewrite Hc|]; simpl; rewrite Hc; reflexivity.
Qed.

(** [s.strip().strip() == s.strip()] *)
Lemma strip_idemp s : Py.strip (Py.strip s) = Py.strip s.
Proof. unfold Py.strip. rewrite lstrip_rstrip_lstrip. apply rstrip_idemp. Qed.

End StringFacts.

(** ** The recognition engine *)

Section EngineFacts.

Variable vosk : recognizer.

(** What [_transcribe_with_vosk] does once the decoder has run. *)
Lemma _transcribe_with_vosk_run audio m rec results wts :
  KaldiRecognizer vosk m (sample_rate audio) = inr rec ->
  recognize vosk (SetWords vosk true rec) (chunks_of chunk_size (frame_data audio))
    = inr (results, wts) ->
  _transcribe_with_vosk vosk audio m =
    if Py.nonempty (full_text_of results)
    then inr (full_text_of results, avg_confidence (full_text_of results) wts, wts)
    else inl (Exception "Vosk recognition error: No speech detected in audio").
Proof.
  intros Hrec Hrun. unfold _transcribe_with_vosk, transcribe_chunked.
  rewrite Hrec. unfold exc_bind at 1. rewrite Hrun. unfold exc_bind.
  destruct (Py.nonempty (full_text_of results)); reflexivity.
Qed.

(** Whatever [_transcribe_with_vosk] returns is a non-empty, stripped text
    with the confidence computed from it. *)
Lemma _transcribe_with_vosk_text audio m text confidence wts :
  _transcribe_with_vosk vosk audio m = inr (text, confidence, wts) ->
  text <> "" /\ Py.strip text = text /\ confidence = avg_confidence text wts.
Proof.
  unfold _transcribe_with_vosk, transcribe_chunked, exc_bind.
  destruct (KaldiRecognizer vosk m (sample_rate audio)) as [e|rec]; [discriminate|].
  destruct (recognize vosk _ _) as [e|[results wts']]; [discriminate|].
  destruct (Py.nonempty (full_text_of results)) eqn:Hne; [|discriminate].
  intros [= <- <- <-]. apply nonempty_true in Hne. repeat split; trivial.
  apply strip_idemp.
Qed.

(** Every exception that leaves [_transcribe_with_vosk] carries the
    prefix the function's handler adds. *)
Lemma _transcribe_with_vosk_raises audio m e :
  _transcribe_with_vosk vosk audio m = inl e ->
  exists e0, e = vosk_error e0.
Proof.
  unfold _transcribe_with_vosk.
  destruct (transcribe_chunked vosk chunk_size audio m) as [e0|r]; [|discriminate].
  intros [= <-]. eauto.
Qed.

End EngineFacts.

(** ** Chunking *)

Section Chunking.

Lemma range_0 (step : nat) : 0 < step -> Py.range 0 step = [].
Proof.
  intros Hs. unfold Py.range.
  replace ((0 + step - 1) / step) with 0; trivial.
  symmetry. apply Nat.div_small. lia.
Qed.

Lemma range_S (n step : nat) :
  0 < step -> 0 < n ->
  Py.range n step = 0 :: map (fun i => step + i) (Py.range (n - step) step).
Proof.
  intros Hs Hn. unfold Py.range.
  assert (Hk : (n + step - 1) / step = S ((n - step + step - 1) / step)).
  { destruct (le_lt_dec step n) as [Hle|Hlt].
    - replace (n + step - 1) with ((n - step + step - 1) + 1 * step) by lia.
      rewrite Nat.div_add by lia. lia.
    - replace (n - step + step - 1) with (step - 1) by lia.
      rewrite (Nat.div_small (step - 1)) by lia.
      replace (n + step - 1) with ((n - 1) + 1 * step) by lia.
      rewrite Nat.div_add by lia. rewrite Nat.div_small by lia. reflexivity. }
  rewrite Hk. cbn [seq map]. f_equal.
  rewrite <- seq_shift, !map_map. apply map_ext. intros k. lia.
Qed.

Lemma chunks_of_nil (chunk_size : nat) : 0 < chunk_size -> chunks_of chunk_size [] = [].
Proof. intros Hs. unfold chunks_of. cbn [length]. rewrite range_0; trivial. Qed.

(** The loop takes the first [chunk_size] bytes and goes on with the rest. *)
Lemma chunks_of_cons (chunk_size : nat) (audio_bytes : list Byte.byte) :
  0 < chunk_size -> audio_bytes <> [] ->
  chunks_of chunk_size audio_bytes =
    take chunk_size audio_bytes :: chunks_of chunk_size (drop chunk_size audio_bytes).
Proof.
  intros Hs Hne. unfold chunks_of.
  rewrite range_S; trivial.
  2:{ destruct audio_bytes; [congruence|]. cbn [length]. lia. }
  cbn [map]. rewrite drop_0. f_equal.
  rewrite length_drop, map_map. apply map_ext. intros i.
  rewrite drop_drop. reflexivity.
Qed.

(** The chunks are non-empty and, put end to end, are the stream. *)
Lemma chunks_of_spec (chunk_size : nat) (audio_bytes : list Byte.byte) :
  0 < chunk_size ->
  concat (chunks_of chunk_size audio_bytes) = audio_bytes /\
  Forall (fun chunk => chunk <> []) (chunks_of chunk_size audio_bytes).
Proof.
  intros Hs.
  induction audio_bytes as [audio_bytes IH] using (induction_ltof1 _ (@length _)).
  unfold ltof in IH.
  destruct audio_bytes as [|b rest].
  - rewrite chunks_of_nil; auto.
  - rewrite chunks_of_cons by (trivial; discriminate).
    destruct (IH (drop chunk_size (b :: rest))) as [Hcat Hall].
    { rewrite length_drop. cbn [length]. lia. }
    split.
    + cbn [concat]. rewrite Hcat. apply take_drop.
    + constructor; trivial.
      destruct chunk_size; [lia|]. discriminate.
Qed.

End Chunking.

(** ** Chunk size and the recognised text *)

Section ChunkSize.

Variable vosk : recognizer.
Variable rec : rec_state vosk.
Hypothesis Hsplit : split_invariant vosk rec.

(** Any cutting of a stream into non-empty chunks reads as the stream fed
    in one piece. *)
Lemma text_of_chunks_merge (chunks before : list (list Byte.byte)) :
  chunks <> [] ->
  Forall (fun chunk => chunk <> []) chunks ->
  text_of_chunks vosk rec (before ++ chunks)%list =
  text_of_chunks vosk rec (before ++ [concat chunks])%list.
Proof.
  revert before. induction chunks as [|a chunks IH]; intros before Hne Hall; [congruence|].
  inversion Hall as [|? ? Ha Hrest]; subst.
  destruct chunks as [|b chunks].
  - cbn [concat]. rewrite app_nil_r. reflexivity.
  - replace (before ++ a :: b :: chunks)%list with ((before ++ [a]) ++ b :: chunks)%list
      by (rewrite <- app_assoc; reflexivity).
    rewrite IH by (trivial; discriminate).
    rewrite <- app_assoc. cbn [app].
    rewrite <- Hsplit; trivial.
    inversion Hrest as [|? ? Hb _]; subst.
    cbn [concat]. destruct b; [congruence|]. discriminate.
Qed.

Lemma streamed_text_whole (chunk_size : nat) (audio_bytes : list Byte.byte) :
  0 < chunk_size -> audio_bytes <> [] ->
  streamed_text vosk chunk_size rec audio_bytes = text_of_chunks vosk rec [audio_bytes].
Proof.
  intros Hs Hne. unfold streamed_text.
  destruct (chunks_of_spec chunk_size audio_bytes Hs) as [Hcat Hall].
  assert (Hnn : chunks_of chunk_size audio_bytes <> []).
  { intros Hnil. rewrite Hnil in Hcat. cbn in Hcat. congruence. }
  transitivity (text_of_chunks vosk rec [concat (chunks_of chunk_size audio_bytes)]).
  - apply (text_of_chunks_merge _ []); trivial.
  - rewrite Hcat. reflexivity.
Qed.

End ChunkSize.


(** The buffering decoder only looks at the bytes it was fed. *)
Lemma buffering_feed (chunks : list (list Byte.byte)) (rec : list Byte.byte)
    (results : list string) (wts : list word_timestamp) :
  feed_chunks Samples.buffering rec chunks results wts =
    inr ((rec ++ concat chunks)%list, results, wts).
Proof.
  revert rec. induction chunks as [|chunk chunks IH]; intros rec.
  - cbn. rewrite app_nil_r. reflexivity.
  - cbn [feed_chunks]. cbn [AcceptWaveform Samples.buffering exc_bind].
    rewrite IH. cbn [concat]. rewrite app_assoc. reflexivity.
Qed.

Lemma buffering_split_invariant (rec : list Byte.byte) :
  split_invariant Samples.buffering rec.
Proof.
  intros before after a b _ _.
  unfold text_of_chunks, recognize. rewrite !buffering_feed.
  rewrite !concat_app. cbn [concat]. rewrite <- !app_assoc. reflexivity.
Qed.



(** ** The model cache *)

Lemma _get_vosk_model_unfold (E : env) (lang_code : string) (w : world) :
  _get_vosk_model E lang_code w =
    if negb (assoc_mem VOSK_MODELS lang_code)
    then (inl (Exception ("No Vosk model available for language " ++ lang_code)), w)
    else
      match models w !! lang_code with
      | Some m => (inr m, w)
      | None =>
          match assoc_get VOSK_MODELS lang_code with
          | None => (inl (Exception ("'" ++ lang_code ++ "'")), w)
          | Some model_path =>
              if bool_decide (is_Some (fs w !! model_path)) then
                let m := Model (length (loaded w)) model_path in
                let w1 := set_loaded (fun l => (l ++ [model_path])%list) w in
                match vosk_Model E model_path with
                | Some e => (inl e, w1)
                | None => (inr m, set_models (insert lang_code m) w1)
                end
              else (inl (Exception ("Model path not found: " ++ model_path)), w)
          end
      end.
Proof.
  unfold _get_vosk_model, new_Model. run.
  destruct (assoc_mem VOSK_MODELS lang_code); run; trivial.
  destruct (models w !! lang_code) as [m|] eqn:Hc.
  - rewrite bool_decide_eq_true_2 by eauto. run. rewrite Hc. reflexivity.
  - rewrite bool_decide_eq_false_2 by (intros [? ?]; congruence). run.
    destruct (assoc_get VOSK_MODELS lang_code) as [p|]; trivial.
    destruct (bool_decide (is_Some (fs w !! p))); run; trivial.
    destruct (vosk_Model E p); run; trivial.
    cbn [models set_models set_loaded]. rewrite lookup_insert_eq. reflexivity.
Qed.

(** A call never drops or replaces an entry of the cache. *)
Lemma _get_vosk_model_keeps (E : env) (other lang_code : string) (w w' : world)
    (r : Exc model) (m : model) :
  models w !! lang_code = Some m ->
  _get_vosk_model E other w = (r, w') ->
  models w' !! lang_code = Some m.
Proof.
  intros Hm. rewrite _get_vosk_model_unfold.
  destruct (negb (assoc_mem VOSK_MODELS other)); [intros [= _ <-]; trivial|].
  destruct (models w !! other) as [m'|] eqn:Ho; [intros [= _ <-]; trivial|].
  destruct (assoc_get VOSK_MODELS other) as [p|]; [|intros [= _ <-]; trivial].
  destruct (bool_decide (is_Some (fs w !! p))); [|intros [= _ <-]; trivial].
  cbv zeta. destruct (vosk_Model E p); intros [= _ <-]; cbn [models set_models set_loaded]; trivial.
  rewrite lookup_insert_ne; trivial. intros ->. congruence.
Qed.

(** C5. A successful [_get_vosk_model] call leaves the model in the cache
    under its locale code; from then on every call for that code, in any
    later state of the converter and whatever has become of the files,
    returns that same model object and changes nothing (no load is made),
    and no call ever drops the entry.  A call that has to load a model whose
    path does not exist raises and loads nothing, and a locale code with no
    model path at all always raises. *)
Theorem model_cache_memoizes (E : env) (lang_code : string) :
  (forall (w w1 : world) (m : model),
      _get_vosk_model E lang_code w = (inr m, w1) ->
      models w1 !! lang_code = Some m /\
      (forall (E' : env) (w2 : world),
          models w2 !! lang_code = Some m ->
          _get_vosk_model E' lang_code w2 = (inr m, w2)) /\
      (forall (E' : env) (other : string) (w2 w3 : world) (r : Exc model),
          models w2 !! lang_code = Some m ->
          _get_vosk_model E' other w2 = (r, w3) ->
          models w3 !! lang_code = Some m)) /\
  (forall (w : world) (model_path : string),
      models w !! lang_code = None ->
      assoc_get VOSK_MODELS lang_code = Some model_path ->
      fs w !! model_path = None ->
      _get_vosk_model E lang_code w =
        (inl (Exception ("Model path not found: " ++ model_path)), w)) /\
  (forall (w : world),
      assoc_get VOSK_MODELS lang_code = None ->
      _get_vosk_model E lang_code w =
        (inl (Exception ("No Vosk model available for language " ++ lang_code)), w)).
Proof.
  split; [|split].
  - intros w w1 m Hcall.
    assert (Hin : assoc_mem VOSK_MODELS lang_code = true).
    { rewrite _get_vosk_model_unfold in Hcall.
      destruct (assoc_mem VOSK_MODELS lang_code); trivial. discriminate. }
    assert (Hhit : forall E' w2, models w2 !! lang_code = Some m ->
                                 _get_vosk_model E' lang_code w2 = (inr m, w2)).
    { intros E' w2 Hm. rewrite _get_vosk_model_unfold, Hin, Hm. reflexivity. }
    split; [|split; [exact Hhit|]].
    + rewrite _get_vosk_model_unfold, Hin in Hcall. cbn [negb] in Hcall.
      destruct (models w !! lang_code) as [m'|] eqn:Hc.
      * injection Hcall as <- <-. trivial.
      * destruct (assoc_get VOSK_MODELS lang_code) as [p|]; [|discriminate].
        destruct (bool_decide (is_Some (fs w !! p))); [|discriminate].
        cbv zeta in Hcall. destruct (vosk_Model E p); [discriminate|].
        injection Hcall as <- <-. cbn [models set_models set_loaded].
        apply lookup_insert_eq.
    + intros E' other w2 w3 r Hm Hother.
      exact (_get_vosk_model_keeps E' other lang_code w2 w3 r m Hm Hother).
  - intros w model_path Hmiss Hpath Habsent.
    rewrite _get_vosk_model_unfold, Hmiss, Hpath.
    assert (Hin : assoc_mem VOSK_MODELS lang_code = true).
    { unfold assoc_get in Hpath. unfold assoc_mem.
      destruct (find _ VOSK_MODELS) as [kv|] eqn:Hf; [|discriminate].
      apply existsb_exists. exists kv. apply find_some in Hf. exact Hf. }
    rewrite Hin. cbn [negb].
    rewrite bool_decide_eq_false_2; trivial.
    rewrite Habsent. intros [? ?]; discriminate.
  - intros w Hnone. rewrite _get_vosk_model_unfold.
    assert (Hin : assoc_mem VOSK_MODELS lang_code = false).
    { unfold assoc_get in Hnone. unfold assoc_mem.
      destruct (existsb _ VOSK_MODELS) eqn:Hex; trivial.
      apply existsb_exists in Hex as (kv & Hkv & Heq).
      destruct (find _ VOSK_MODELS) as [kv'|] eqn:Hf; [discriminate|].
      apply (find_none _ _ Hf) in Hkv. congruence. }
    rewrite Hin. reflexivity.
Qed.

(** The first call loads the English model; a second call, made after the
    model directory has been deleted, returns the same object and loads
    nothing. *)
Lemma model_cache_memoizes_witness :
  let E := Samples.service Samples.buffering Samples.speech in
  let w1 := snd (_get_vosk_model E "en-US" Samples.fresh) in
  let w2 := set_fs (delete Samples.english_path) w1 in
  _get_vosk_model E "en-US" w2 = (inr Samples.english_model, w2) /\ loaded w2 = loaded w1.
Proof.
  intros E w1 w2. split; [|reflexivity].
  apply (proj1 (proj2 (proj1 (model_cache_memoizes E "en-US") Samples.fresh w1
                  Samples.english_model ltac:(vm_compute; reflexivity)))).
  vm_compute. reflexivity.
Defined.

(** ** The blocks of [transcribe_audio] *)

Lemma convert_audio_to_wav_total (E : env) (input_path output_path : string) (w : world) :
  exists converted w',
    convert_audio_to_wav E input_path output_path w = (inr converted, w').
Proof.
  unfold convert_audio_to_wav. run.
  destruct (String.eqb _ "wav").
  - destruct (fs w !! input_path); [|eauto].
    destruct (copy2 E input_path output_path); eauto.
  - destruct (bool_decide _); destruct (from_file E input_path _); eauto;
      destruct (export E _ output_path); eauto.
Qed.

Lemma convert_if_needed_run (E : env) (audio_path : string) (d : dict) (w : world) :
  convert_if_needed E audio_path (d, w) =
    if negb (Py.endswith (Py.lower audio_path) ".wav") then
      let wav_path := Path.join (gettempdir E) (uuid4 E (uuids w) ++ ".wav") in
      match convert_audio_to_wav E audio_path wav_path (set_uuids S w) with
      | (inr true, w1) => (Normal wav_path, (d, w1))
      | (inr false, w1) =>
          let failed := <["error" := PStr conversion_failed]> d in
          (Returns failed, (failed, w1))
      | (inl e, w1) => (Raises e, (d, w1))
      end
    else (Normal audio_path, (d, w)).
Proof.
  unfold convert_if_needed, draw_uuid, setitem.
  destruct (negb (Py.endswith (Py.lower audio_path) ".wav")); [|reflexivity].
  run. destruct (convert_audio_to_wav E audio_path _ _) as [[e|[]] w1]; reflexivity.
Qed.

(** The conversion block either hands over a path, leaving the dictionary
    alone, or returns the conversion failure. *)
Lemma convert_if_needed_cases (E : env) (audio_path : string) (d : dict) (w : world) :
  (exists wav_path w1, convert_if_needed E audio_path (d, w) = (Normal wav_path, (d, w1))) \/
  (exists w1, convert_if_needed E audio_path (d, w) =
                (Returns (<["error" := PStr conversion_failed]> d),
                 (<["error" := PStr conversion_failed]> d, w1))).
Proof.
  rewrite convert_if_needed_run.
  destruct (negb (Py.endswith (Py.lower audio_path) ".wav")); [|eauto].
  cbv zeta.
  destruct (convert_audio_to_wav_total E audio_path
              (Path.join (gettempdir E) (uuid4 E (uuids w) ++ ".wav")) (set_uuids S w))
    as (converted & w1 & ->).
  destruct converted; eauto.
Qed.

Lemma recognize_speech_run (E : env) (language : string) (audio : audio_data)
    (d : dict) (w : world) :
  recognize_speech E language audio (d, w) =
    if negb (assoc_mem LANGUAGE_MAPPING (Py.lower language))
    then (Normal tt, (rejected language d, w))
    else
      match _get_vosk_model E (lang_code_of language) w with
      | (inl e, w') => (Normal tt, (<["error" := PStr (recognition_failed e)]> d, w'))
      | (inr m, w') =>
          match _transcribe_with_vosk (vosk E) audio m with
          | inl e => (Normal tt, (<["error" := PStr (recognition_failed e)]> d, w'))
          | inr (text, confidence, wts) =>
              if Py.nonempty text && Py.nonempty (Py.strip text)
              then (Normal tt, (transcribed (lang_code_of language) text confidence wts d, w'))
              else (Normal tt, (<["error" := PStr no_speech_hint]> d, w'))
          end
      end.
Proof.
  unfold recognize_speech, setitem, lang_code_of.
  destruct (negb (assoc_mem LANGUAGE_MAPPING (Py.lower language))); [reflexivity|].
  run.
  destruct (_get_vosk_model E _ w) as [[e|m] w']; [reflexivity|].
  destruct (_transcribe_with_vosk (vosk E) audio m) as [e|[[text confidence] wts]];
    [reflexivity|].
  destruct (Py.nonempty text && Py.nonempty (Py.strip text)); reflexivity.
Qed.

Lemma recognize_speech_cases (E : env) (language : string) (audio : audio_data) (w1 : world) :
  exists d2 w2,
    recognize_speech E language audio (initial_result, w1) = (Normal tt, (d2, w2)) /\
    recognized E language audio w1 d2 w2.
Proof.
  rewrite recognize_speech_run.
  destruct (assoc_mem LANGUAGE_MAPPING (Py.lower language)) eqn:Hlang; cbn [negb].
  2:{ eexists _, _. split; [reflexivity|]. constructor; trivial. }
  destruct (_get_vosk_model E (lang_code_of language) w1) as [[e|m] w2] eqn:Hmodel.
  { eexists _, _. split; [reflexivity|]. econstructor; eauto. }
  destruct (_transcribe_with_vosk (vosk E) audio m) as [e|[[text confidence] wts]] eqn:Hrun.
  { eexists _, _. split; [reflexivity|]. eapply engine_failed; eauto. }
  destruct (_transcribe_with_vosk_text _ _ _ _ _ _ Hrun) as (Htext & Hstrip & _).
  rewrite Hstrip. apply nonempty_true in Htext as Hne. rewrite Hne. cbn [andb].
  eexists _, _. split; [reflexivity|]. eapply speech_transcribed; eauto.
Qed.

Lemma finish_run (E : env) (audio_path wav_path : string) (d : dict) (w : world) :
  finish E audio_path wav_path (d, w) =
    match d !! "success" with
    | None => (Raises (Exception "'success'"), (d, w))
    | Some succeeded =>
        let d' := if negb (truthy succeeded) && negb (has_key d "error")
                  then <["error" := PStr "All speech recognition services failed"]> d
                  else d in
        if negb (String.eqb wav_path audio_path) && bool_decide (is_Some (fs w !! wav_path))
        then match remove E wav_path with
             | Some e => (Raises e, (d', w))
             | None => (Normal tt, (d', set_fs (delete wav_path) w))
             end
        else (Normal tt, (d', w))
    end.
Proof.
  unfold finish, getitem, os_remove, setitem. run.
  destruct (d !! "success") as [succeeded|]; [|reflexivity].
  destruct (negb (truthy succeeded) && negb (has_key d "error")); run;
    destruct (negb (String.eqb wav_path audio_path)); run; trivial;
    destruct (bool_decide (is_Some (fs w !! wav_path))) eqn:Hp; run; trivial;
    rewrite Hp; run; destruct (remove E wav_path); reflexivity.
Qed.

Lemma transcribe_audio_unfold (E : env) (audio_path language : string) (w : world) :
  transcribe_audio E audio_path language w =
    match convert_if_needed E audio_path (initial_result, entered audio_path language w) with
    | (Returns r, (_, w1)) => (inr r, w1)
    | (Raises e, (d, w1)) => (inr (<["error" := PStr (str e)]> d), w1)
    | (Normal wav_path, (d, w1)) =>
        match AudioFile E wav_path with
        | inl e => (inr (<["error" := PStr (str e)]> d), w1)
        | inr audio =>
            match recognize_speech E language audio (d, w1) with
            | (Normal _, s2) =>
                match finish E audio_path wav_path s2 with
                | (Normal _, (d3, w3)) => (inr d3, w3)
                | (Returns r, (_, w3)) => (inr r, w3)
                | (Raises e, (d3, w3)) => (inr (<["error" := PStr (str e)]> d3), w3)
                end
            | (Returns r, (_, w2)) => (inr r, w2)
            | (Raises e, (d2, w2)) => (inr (<["error" := PStr (str e)]> d2), w2)
            end
        end
    end.
Proof.
  unfold transcribe_audio, setitem, entered. run.
  destruct (convert_if_needed E audio_path _) as [[wav|r|e] [d w1]]; try reflexivity.
  destruct (AudioFile E wav) as [e|audio]; [reflexivity|].
  destruct (recognize_speech E language audio (d, w1)) as [[[]|r|e] [d2 w2]]; try reflexivity.
  destruct (finish E audio_path wav (d2, w2)) as [[[]|r|e] [d3 w3]]; reflexivity.
Qed.

(** The recognition block always leaves a boolean under ['success'] and
    something under ['error']. *)
Lemma recognized_keys (E : env) (language : string) (audio : audio_data)
    (w1 w2 : world) (d2 : dict) :
  recognized E language audio w1 d2 w2 ->
  (exists b, d2 !! "success" = Some (PBool b)) /\ has_key d2 "error" = true.
Proof. intros []; split; eauto; reflexivity. Qed.

(** [transcribe_audio] always returns, in one of the four ways of
    [transcription]. *)
Lemma transcribe_audio_cases (E : env) (audio_path language : string) (w : world) :
  exists result w',
    transcribe_audio E audio_path language w = (inr result, w') /\
    transcription E audio_path language w result w'.
Proof.
  rewrite transcribe_audio_unfold.
  destruct (convert_if_needed_cases E audio_path initial_result
              (entered audio_path language w)) as [(wav & w1 & Hconv)|(w1 & Hconv)].
  2:{ rewrite Hconv. eexists _, _. split; [reflexivity|].
      exact (conversion_refused E audio_path language w _ _ Hconv eq_refl). }
  rewrite Hconv.
  destruct (AudioFile E wav) as [e|audio] eqn:Haudio.
  { eexists _, _. split; [reflexivity|]. eapply audio_unreadable; eauto. }
  destruct (recognize_speech_cases E language audio w1) as (d2 & w2 & -> & Hrec).
  rewrite finish_run.
  destruct (recognized_keys _ _ _ _ _ _ Hrec) as [[b ->] ->].
  rewrite andb_false_r. cbv zeta.
  destruct (negb (String.eqb wav audio_path) && bool_decide (is_Some (fs w2 !! wav))) eqn:Hc.
  - apply andb_true_iff in Hc as [Hneq Hex].
    apply negb_true_iff, String.eqb_neq in Hneq. apply bool_decide_eq_true in Hex.
    destruct (remove E wav) as [e|] eqn:Hrm.
    + eexists _, _. split; [reflexivity|]. eapply cleanup_failed; eauto.
    + eexists _, _. split; [reflexivity|].
      pose proof (pipeline_ran E audio_path language w wav w1 audio d2 w2 Hconv Haudio Hrec
                    (or_intror (or_intror Hrm))) as H.
      rewrite (proj2 (String.eqb_neq _ _) Hneq) in H.
      rewrite bool_decide_eq_true_2 in H by trivial. exact H.
  - eexists _, _. split; [reflexivity|].
    assert (Hside : wav = audio_path \/ fs w2 !! wav = None \/ remove E wav = None).
    { apply andb_false_iff in Hc as [Hc|Hc].
      - left. apply negb_false_iff, String.eqb_eq in Hc. trivial.
      - right; left. apply bool_decide_eq_false in Hc.
        destruct (fs w2 !! wav); trivial. exfalso; eauto. }
    pose proof (pipeline_ran E audio_path language w wav w1 audio d2 w2 Hconv Haudio Hrec Hside)
      as H.
    rewrite Hc in H. exact H.
Qed.

(** A call ends with a dictionary and the world it leaves. *)
Lemma transcribe_audio_outcome (E : env) (audio_path language : string) (w : world) :
  exists result,
    transcribe_audio E audio_path language w =
      (inr result, snd (transcribe_audio E audio_path language w)) /\
    fst (transcribe_audio E audio_path language w) = inr result.
Proof.
  destruct (transcribe_audio_cases E audio_path language w) as (result & w' & Hcall & _).
  exists result. rewrite Hcall. split; reflexivity.
Qed.

(** For a call on given collaborators: names the dictionary and the world as
    projections of the call, so that only what is asked of them is
    evaluated. *)
Ltac evaluate_call :=
  match goal with
  | |- exists result w', transcribe_audio ?E ?p ?l ?w = _ /\ _ =>
      let H1 := fresh in
      let H2 := fresh in
      let r := fresh "result" in
      destruct (transcribe_audio_outcome E p l w) as (r & H1 & H2);
      exists r, (snd (transcribe_audio E p l w)); split; [exact H1|];
      clear H1;
      assert (r = match fst (transcribe_audio E p l w) with inr d => d | inl _ => ∅ end)
        as -> by (rewrite H2; reflexivity);
      clear H2
  end.

(** ** The fallback confidence *)



(** ** Failures are captured in the result *)

(** C2. [transcribe_audio] never raises: for every path, language and state
    of the world it returns a dictionary.  ['success'] is a boolean in it;
    when it is false, ['error'] holds a string; and it is true only when
    every stage went through, so a failed conversion, an unreadable file, an
    unsupported language, a model that cannot be loaded, a failing engine and
    the absence of speech all end in [success = False] with an error
    message. *)
Theorem transcribe_audio_captures_failures
    (E : env) (audio_path language : string) (w : world) :
  exists result w',
    transcribe_audio E audio_path language w = (inr result, w') /\
    exists succeeded : bool,
      result !! "success" = Some (PBool succeeded) /\
      (succeeded = false -> exists msg, result !! "error" = Some (PStr msg)) /\
      (succeeded = true -> pipeline_succeeds E audio_path language w).
Proof.
  destruct (transcribe_audio_cases E audio_path language w) as (result & w' & Hcall & Hcase).
  exists result, w'. split; [exact Hcall|]. clear Hcall.
  destruct Hcase as [s1 r Hconv ->|wav w1 e Hconv Haudio
                    |wav w1 audio d2 w2 Hconv Haudio Hrec _
                    |wav w1 audio d2 w2 e Hconv Haudio Hrec _ _ _].
  - exists false. repeat split; [eexists; reflexivity|discriminate].
  - exists false. repeat split; [eexists; reflexivity|discriminate].
  - destruct Hrec as [Hlang|e w2 Hlang Hmodel|m e w2 Hlang Hmodel Hrun
                     |m text confidence wts w2 Hlang Hmodel Hrun Htext Hstrip].
    + exists false. repeat split; [eexists; reflexivity|discriminate].
    + exists false. repeat split; [eexists; reflexivity|discriminate].
    + exists false. repeat split; [eexists; reflexivity|discriminate].
    + exists true. repeat split; [discriminate|]. intros _.
      exists wav, w1, audio, m, w2, text, confidence, wts. auto 10.
  - destruct Hrec as [Hlang|e' w2 Hlang Hmodel|m e' w2 Hlang Hmodel Hrun
                     |m text confidence wts w2 Hlang Hmodel Hrun Htext Hstrip].
    + exists false. repeat split; [eexists; reflexivity|discriminate].
    + exists false. repeat split; [eexists; reflexivity|discriminate].
    + exists false. repeat split; [eexists; reflexivity|discriminate].
    + exists true. repeat split; [discriminate|]. intros _.
      exists wav, w1, audio, m, w2, text, confidence, wts. auto 10.
Qed.



(** ** Unsupported languages *)




(** ** The temporary WAV file *)

(** C6 fails on the code: a six-channel FLAC file is converted to a
    temporary WAV file, reading that file raises, the outer handler records
    the message, and the call returns with the temporary file still there
    (the removal is the last statement of the [try] block, not a
    [finally]). *)
Lemma temporary_wav_left_behind :
  exists result w',
    transcribe_audio Samples.unreadable "surround.flac" "english" Samples.fresh
      = (inr result, w') /\
    result !! "success" = Some (PBool false) /\
    result !! "error" = Some (PStr "Audio must be mono or stereo") /\
    fs Samples.fresh !! "/tmp/uuid-0.wav" = None /\
    fs w' !! "/tmp/uuid-0.wav" = Some (Blob 47).
Proof.
  evaluate_call. repeat split; vm_compute; reflexivity.
Qed.

(** X1. When the converted file is read, the temporary file is gone when the
    call returns, whatever the recognition did, unless its removal itself
    fails. *)
Lemma temporary_wav_removed (E : env) (audio_path language : string) (w w' : world)
    (result : dict) (wav_path : string) (s1 : dict * world) (audio : audio_data) :
  transcribe_audio E audio_path language w = (inr result, w') ->
  convert_if_needed E audio_path (initial_result, entered audio_path language w)
    = (Normal wav_path, s1) ->
  AudioFile E wav_path = inr audio ->
  remove E wav_path = None ->
  wav_path <> audio_path ->
  fs w' !! wav_path = None.
Proof.
  intros Hcall Hconv Haudio Hrm Hneq.
  destruct (transcribe_audio_cases E audio_path language w) as (r & w'' & Hcall' & Hcase).
  rewrite Hcall in Hcall'. injection Hcall' as <- <-.
  destruct Hcase as [s1' r Hconv' ->|wav w1 e Hconv' Haudio'
                    |wav w1 audio' d2 w2 Hconv' Haudio' Hrec _
                    |wav w1 audio' d2 w2 e Hconv' Haudio' Hrec _ _ Hrm'];
    rewrite Hconv in Hconv'; try discriminate Hconv'; injection Hconv' as -> ->;
    try congruence.
  rewrite (proj2 (String.eqb_neq _ _) Hneq). cbn [negb andb].
  destruct (bool_decide (is_Some (fs w2 !! wav))) eqn:Hex.
  - cbn [fs set_fs]. apply lookup_delete_eq.
  - apply bool_decide_eq_false in Hex. destruct (fs w2 !! wav); trivial. exfalso; eauto.
Qed.

(** An MP3 recording of one word: the temporary WAV file is removed. *)
Lemma temporary_wav_removed_witness :
  let E := Samples.service Samples.per_chunk Samples.silence in
  fs (snd (transcribe_audio E "memo.mp3" "english" Samples.fresh)) !! "/tmp/uuid-0.wav" = None.
Proof.
  intros E.
  destruct (transcribe_audio_outcome E "memo.mp3" "english" Samples.fresh)
    as (result & Hcall & _).
  apply (temporary_wav_removed E "memo.mp3" "english" Samples.fresh _ result
           "/tmp/uuid-0.wav"
           (initial_result,
            snd (convert_audio_to_wav E "memo.mp3" "/tmp/uuid-0.wav"
                   (set_uuids S (entered "memo.mp3" "english" Samples.fresh))))
           Samples.silence).
  - exact Hcall.
  - rewrite convert_if_needed_run.
    change (negb (Py.endswith (Py.lower "memo.mp3") ".wav")) with true.
    change (Path.join (gettempdir E)
              (uuid4 E (uuids (entered "memo.mp3" "english" Samples.fresh)) ++ ".wav"))
      with "/tmp/uuid-0.wav".
    cbv zeta iota.
    destruct (convert_audio_to_wav E "memo.mp3" "/tmp/uuid-0.wav" _) as [[e|[]] w1] eqn:Hc;
      [apply (f_equal fst) in Hc; vm_compute in Hc; discriminate Hc | reflexivity
      |apply (f_equal fst) in Hc; vm_compute in Hc; discriminate Hc].
  - reflexivity.
  - reflexivity.
  - discriminate.
Defined.

(** ** The report of a failed transcription *)

Lemma get_or_insert_ne (d : dict) (key other : string) (v dflt : pyval) :
  other <> key -> get_or (<[other := v]> d) key dflt = get_or d key dflt.
Proof. intros Hne. unfold get_or. rewrite lookup_insert_ne; trivial. Qed.

Lemma get_insert_ne (d : dict) (key other : string) (v : pyval) :
  other <> key -> get (<[other := v]> d) key = get d key.
Proof. intros Hne. unfold get. rewrite lookup_insert_ne; trivial. Qed.

(** With a false ['success'] the document does not depend on the transcript
    keys. *)
Lemma build_document_failed (E : env) (r : dict) (original_filename : string)
    (text segments note : pyval) :
  truthy (get r "success") = false ->
  build_document E
    (<["text" := text]> (<["speaker_segments" := segments]> (<["note" := note]> r)))
    original_filename
  = build_document E r original_filename.
Proof.
  intros Hfailed. unfold build_document, metadata_table, failure_notice.
  rewrite !get_or_insert_ne, !get_insert_ne by discriminate.
  rewrite Hfailed. reflexivity.
Qed.

(** C8. For a result whose ['success'] is false, the document that
    [create_word_document] saves has, under the heading [Transcription],
    exactly one paragraph: the bold run [Transcription Failed: ] followed by
    a run with the result's error text; the footer comes next.  The
    transcript is not in it: the same document is saved whatever the result
    has under ['text'], ['speaker_segments'] and ['note']. *)
Theorem failed_result_report
    (E : env) (transcription_result : dict) (original_filename : string)
    (w w' : world) (path : string) :
  truthy (get transcription_result "success") = false ->
  create_word_document E transcription_result original_filename w = (inr path, w') ->
  exists table error,
    as_text (get_or transcription_result "error" (PStr "Unknown error")) = inr error /\
    (forall e, transcription_result !! "error" = Some (PStr e) -> error = e) /\
    fs w' !! path =
      Some (Docx [ Heading 0 "Audio Transcription Report";
                   Heading 1 "Document Information";
                   Table "Table Grid" table;
                   Heading 1 "Transcription";
                   Paragraph false [Run true "Transcription Failed: "; Run false error];
                   Paragraph false [];
                   Paragraph true
                     [Run false "Generated by Audio to Text Conversion Service (Offline)"] ]) /\
    (forall text segments note : pyval,
        create_word_document E
          (<["text" := text]> (<["speaker_segments" := segments]>
             (<["note" := note]> transcription_result)))
          original_filename w
        = (inr path, w')).
Proof.
  intros Hfailed Hcall.
  assert (Hsame : forall text segments note : pyval,
             create_word_document E
               (<["text" := text]> (<["speaker_segments" := segments]>
                  (<["note" := note]> transcription_result)))
               original_filename w
             = create_word_document E transcription_result original_filename w).
  { intros. unfold create_word_document. rewrite build_document_failed; trivial. }
  pose proof Hcall as Hrun.
  unfold create_word_document, draw_uuid in Hrun. run in Hrun.
  unfold build_document, metadata_table, failure_notice in Hrun.
  rewrite Hfailed in Hrun. unfold exc_bind in Hrun.
  destruct (as_number (get_or transcription_result "confidence" (PInt 0)))
    as [e|confidence]; [discriminate Hrun|].
  destruct (as_number (get_or transcription_result "file_size" (PInt 0)))
    as [e|file_size]; [discriminate Hrun|].
  destruct (as_text (get_or transcription_result "error" (PStr "Unknown error")))
    as [e|error] eqn:Herror; [discriminate Hrun|].
  destruct (save E _ _) as [e|]; [discriminate Hrun|].
  injection Hrun as <- <-.
  eexists _, error. split; [reflexivity|]. split; [|split].
  - intros e He. unfold get_or in Herror. rewrite He in Herror. cbn in Herror. congruence.
  - cbn [fs set_fs set_uuids]. rewrite lookup_insert_eq. reflexivity.
  - intros. rewrite Hsame. exact Hcall.
Qed.

(** The report of a transcription refused for its language. *)
Lemma failed_result_report_witness :
  let E := Samples.service Samples.buffering Samples.speech in
  let result := rejected "french" initial_result in
  let w' := snd (create_word_document E result "talk.wav" Samples.fresh) in
  exists table,
    fs w' !! "/tmp/transcription_uuid-0.docx" =
      Some (Docx [ Heading 0 "Audio Transcription Report";
                   Heading 1 "Document Information";
                   Table "Table Grid" table;
                   Heading 1 "Transcription";
                   Paragraph false
                     [ Run true "Transcription Failed: ";
                       Run false "Language 'french' is not supported. Supported languages: spanish, english, auto" ];
                   Paragraph false [];
                   Paragraph true
                     [Run false "Generated by Audio to Text Conversion Service (Offline)"] ]).
Proof.
  intros E result w'.
  destruct (failed_result_report E result "talk.wav" Samples.fresh w'
              "/tmp/transcription_uuid-0.docx" eq_refl ltac:(vm_compute; reflexivity))
    as (table & error & _ & Herror & Hdoc & _).
  exists table. rewrite Hdoc.
  rewrite (Herror _ eq_refl). reflexivity.
Defined.

(** ** The size limit of [POST /api/convert] *)

Lemma convert_audio_to_wav_calls (E : env) (input_path output_path : string) (w : world) :
  calls (snd (convert_audio_to_wav E input_path output_path w)) = calls w.
Proof.
  unfold convert_audio_to_wav. run.
  destruct (String.eqb _ "wav").
  - destruct (fs w !! input_path); trivial.
    destruct (copy2 E input_path output_path); reflexivity.
  - destruct (bool_decide _); destruct (from_file E input_path _); trivial;
      destruct (export E _ output_path); reflexivity.
Qed.

Lemma _get_vosk_model_calls (E : env) (lang_code : string) (w : world) :
  calls (snd (_get_vosk_model E lang_code w)) = calls w.
Proof.
  rewrite _get_vosk_model_unfold.
  destruct (negb (assoc_mem VOSK_MODELS lang_code)); trivial.
  destruct (models w !! lang_code); trivial.
  destruct (assoc_get VOSK_MODELS lang_code); trivial.
  destruct (bool_decide _); trivial.
  cbv zeta. destruct (vosk_Model E _); reflexivity.
Qed.

Lemma recognized_calls (E : env) (language : string) (audio : audio_data)
    (w1 w2 : world) (d2 : dict) :
  recognized E language audio w1 d2 w2 -> calls w2 = calls w1.
Proof.
  intros [Hlang|e w3 Hlang Hmodel|m e w3 Hlang Hmodel Hrun
         |m text confidence wts w3 Hlang Hmodel Hrun Htext Hstrip]; trivial;
    rewrite <- (_get_vosk_model_calls E (lang_code_of language) w1), Hmodel; reflexivity.
Qed.

Lemma convert_if_needed_calls (E : env) (audio_path : string) (d : dict) (w : world) :
  calls (snd (snd (convert_if_needed E audio_path (d, w)))) = calls w.
Proof.
  rewrite convert_if_needed_run.
  destruct (negb (Py.endswith (Py.lower audio_path) ".wav")); trivial.
  cbv zeta.
  pose proof (convert_audio_to_wav_calls E audio_path
                (Path.join (gettempdir E) (uuid4 E (uuids w) ++ ".wav")) (set_uuids S w)) as H.
  destruct (convert_audio_to_wav E audio_path _ _) as [[e|[]] w1]; exact H.
Qed.

(** Every call of [transcribe_audio] leaves its mark in the world, and only
    there: [calls] grows by exactly the call made. *)
Lemma transcribe_audio_recorded (E : env) (audio_path language : string) (w : world) :
  calls (snd (transcribe_audio E audio_path language w)) =
    (calls w ++ [(audio_path, language)])%list.
Proof.
  destruct (transcribe_audio_cases E audio_path language w) as (r & w' & -> & Hcase).
  cbn [snd].
  pose proof (convert_if_needed_calls E audio_path initial_result
                (entered audio_path language w)) as Hconv0.
  destruct Hcase as [s1 r Hconv ->|wav w1 e Hconv Haudio
                    |wav w1 audio d2 w2 Hconv Haudio Hrec _
                    |wav w1 audio d2 w2 e Hconv Haudio Hrec _ _ _];
    rewrite Hconv in Hconv0; cbn [snd] in Hconv0;
    unfold entered in Hconv0; cbn [calls set_calls] in Hconv0.
  - destruct s1; exact Hconv0.
  - exact Hconv0.
  - apply recognized_calls in Hrec.
    destruct (negb _ && _); cbn [calls set_fs]; congruence.
  - apply recognized_calls in Hrec. congruence.
Qed.



(** ** The speaker path *)

(** C10. [_transcribe_with_speakers] is [transcribe_audio]: same value, same
    world, for every path and language; so it always returns a dictionary,
    and the block after its [return], which could only raise, never runs. *)
Theorem _transcribe_with_speakers_bypassed
    (E : env) (audio_path language : string) (w : world) :
  _transcribe_with_speakers E audio_path language w = transcribe_audio E audio_path language w
  /\ exists result w', _transcribe_with_speakers E audio_path language w = (inr result, w').
Proof.
  assert (Heq : _transcribe_with_speakers E audio_path language w
                = transcribe_audio E audio_path language w).
  { unfold _transcribe_with_speakers. run.
    destruct (transcribe_audio E audio_path language w) as [[e|result] w']; reflexivity. }
  split; [exact Heq|]. rewrite Heq.
  destruct (transcribe_audio_cases E audio_path language w) as (result & w' & Hcall & _).
  eauto.
Qed.

(** * Further properties of the code *)

(** ** The recognition loop *)




(** A binary64 number below another is at most that number. *)
Lemma float_ltb_leb (x y : float) : PrimFloat.ltb x y = true -> PrimFloat.leb x y = true.
Proof.
  rewrite ltb_spec, leb_spec. unfold SFltb, SFleb.
  destruct (SFcompare (Prim2SF x) (Prim2SF y)) as [[]|]; congruence.
Qed.

(** X4. The fallback confidence never exceeds 0.8, whatever the text. *)
Theorem fallback_confidence_at_most_0_8 (full_text : string) :
  PrimFloat.leb (fallback_confidence full_text) 0.8 = true.
Proof.
  unfold fallback_confidence, Py.min.
  destruct (PrimFloat.ltb _ 0.8) eqn:Hlt.
  - apply float_ltb_leb. exact Hlt.
  - reflexivity.
Qed.


(** ** Files *)

(** What a conversion does to the files. *)
Lemma convert_audio_to_wav_effect (E : env) (input_path output_path : string) (w : world) :
  exists converted w',
    convert_audio_to_wav E input_path output_path w = (inr converted, w') /\
    (converted = false -> w' = w) /\
    (converted = true ->
       exists f, fs w' = <[output_path := f]> (fs w) /\
                 models w' = models w /\ uuids w' = uuids w /\ loaded w' = loaded w).
Proof.
  unfold convert_audio_to_wav. run.
  destruct (String.eqb _ "wav").
  - destruct (fs w !! input_path) as [f|]; [|conversion_fails].
    destruct (copy2 E input_path output_path); [conversion_fails|].
    eexists true, _. split; [reflexivity|]. split; [discriminate|].
    intros _. exists f. repeat split.
  - destruct (bool_decide _); destruct (from_file E input_path _) as [e|audio];
      try conversion_fails;
      (destruct (export E audio output_path); [conversion_fails|]);
      (eexists true, _; split; [reflexivity|]; split; [discriminate|]);
      intros _; eexists; repeat split.
Qed.

(** X5. [convert_audio_to_wav] never raises: it returns a boolean.  When
    it returns [False] the world is as it was; when it returns [True] the
    output file exists and no other file has changed. *)
Theorem convert_audio_to_wav_never_raises
    (E : env) (input_path output_path : string) (w : world) :
  exists converted w',
    convert_audio_to_wav E input_path output_path w = (inr converted, w') /\
    (converted = false -> w' = w) /\
    (converted = true ->
       is_Some (fs w' !! output_path) /\
       forall path, path <> output_path -> fs w' !! path = fs w !! path).
Proof.
  destruct (convert_audio_to_wav_effect E input_path output_path w)
    as (converted & w' & Hcall & Hfalse & Htrue).
  exists converted, w'. split; [exact Hcall|]. split; [exact Hfalse|].
  intros Hconverted. destruct (Htrue Hconverted) as (f & -> & _). split.
  - rewrite lookup_insert_eq. eauto.
  - intros path Hne. apply lookup_insert_ne. congruence.
Qed.

Lemma _get_vosk_model_files (E : env) (lang_code : string) (w : world) :
  fs (snd (_get_vosk_model E lang_code w)) = fs w /\
  uuids (snd (_get_vosk_model E lang_code w)) = uuids w.
Proof.
  rewrite _get_vosk_model_unfold.
  destruct (negb (assoc_mem VOSK_MODELS lang_code)); auto.
  destruct (models w !! lang_code); auto.
  destruct (assoc_get VOSK_MODELS lang_code); auto.
  destruct (bool_decide _); auto.
  cbv zeta. destruct (vosk_Model E _); auto.
Qed.

Lemma recognized_files (E : env) (language : string) (audio : audio_data)
    (w1 w2 : world) (d2 : dict) :
  recognized E language audio w1 d2 w2 -> fs w2 = fs w1 /\ uuids w2 = uuids w1.
Proof.
  intros [Hlang|e w3 Hlang Hmodel|m e w3 Hlang Hmodel Hrun
         |m text confidence wts w3 Hlang Hmodel Hrun Htext Hstrip]; auto;
    pose proof (_get_vosk_model_files E (lang_code_of language) w1) as H;
    rewrite Hmodel in H; exact H.
Qed.

Lemma wav_input_leaves_files_alone (E : env) (audio_path language : string) (w : world) :
  Py.endswith (Py.lower audio_path) ".wav" = true ->
  fs (snd (transcribe_audio E audio_path language w)) = fs w /\
  uuids (snd (transcribe_audio E audio_path language w)) = uuids w.
Proof.
  intros Hwav.
  destruct (transcribe_audio_cases E audio_path language w) as (r & w' & -> & Hcase).
  cbn [snd].
  assert (Hconv0 : convert_if_needed E audio_path (initial_result, entered audio_path language w)
                   = (Normal audio_path, (initial_result, entered audio_path language w))).
  { rewrite convert_if_needed_run, Hwav. reflexivity. }
  destruct Hcase as [s1 r Hconv ->|wav w1 e Hconv Haudio
                    |wav w1 audio d2 w2 Hconv Haudio Hrec _
                    |wav w1 audio d2 w2 e Hconv Haudio Hrec Hneq _ _];
    rewrite Hconv0 in Hconv; try discriminate Hconv; injection Hconv as <- <-; auto.
  - apply recognized_files in Hrec. rewrite String.eqb_refl. cbn [negb andb]. exact Hrec.
  - congruence.
Qed.

Lemma transcribe_audio_input_kept (E : env) (audio_path language : string) (w : world) :
  is_Some (fs w !! audio_path) ->
  is_Some (fs (snd (transcribe_audio E audio_path language w)) !! audio_path).
Proof.
  intros Hin.
  destruct (transcribe_audio_cases E audio_path language w) as (r & w' & -> & Hcase).
  cbn [snd].
  assert (Hconv0 : forall o s1,
             convert_if_needed E audio_path (initial_result, entered audio_path language w)
               = (o, s1) -> is_Some (fs (snd s1) !! audio_path)).
  { intros o s1. rewrite convert_if_needed_run.
    destruct (negb _); [|intros [= _ <-]; exact Hin].
    cbv zeta.
    destruct (convert_audio_to_wav_effect E audio_path
                (Path.join (gettempdir E)
                   (uuid4 E (uuids (entered audio_path language w)) ++ ".wav"))
                (set_uuids S (entered audio_path language w)))
      as (converted & w1 & -> & Hfalse & Htrue).
    destruct converted; intros [= _ <-]; cbn [snd].
    - destruct (Htrue eq_refl) as (f & -> & _). cbn [fs set_uuids entered set_calls].
      rewrite lookup_insert. case_decide; eauto.
    - rewrite (Hfalse eq_refl). exact Hin. }
  destruct Hcase as [s1 r Hconv ->|wav w1 e Hconv Haudio
                    |wav w1 audio d2 w2 Hconv Haudio Hrec _
                    |wav w1 audio d2 w2 e Hconv Haudio Hrec Hneq _ _];
    apply Hconv0 in Hconv; cbn [snd] in Hconv; trivial;
    apply recognized_files in Hrec as [Hfs _].
  - destruct (negb (String.eqb wav audio_path)) eqn:Hneq; cbn [andb]; [|congruence].
    destruct (bool_decide _); [|congruence].
    cbn [fs set_fs]. rewrite lookup_delete_ne; [congruence|].
    apply negb_true_iff, String.eqb_neq in Hneq. exact Hneq.
  - congruence.
Qed.

(** X6. [transcribe_audio] never removes the file it is given; and for an
    input whose name ends in [.wav], in any letter case, it creates and
    removes no file at all and draws no temporary name. *)
Theorem transcribe_audio_file_footprint (E : env) (audio_path language : string) (w : world) :
  (is_Some (fs w !! audio_path) ->
   is_Some (fs (snd (transcribe_audio E audio_path language w)) !! audio_path)) /\
  (Py.endswith (Py.lower audio_path) ".wav" = true ->
   fs (snd (transcribe_audio E audio_path language w)) = fs w /\
   uuids (snd (transcribe_audio E audio_path language w)) = uuids w).
Proof.
  split.
  - apply transcribe_audio_input_kept.
  - apply wav_input_leaves_files_alone.
Qed.

(** ** Languages and models *)

(** The locale of an accepted language. *)
Lemma lang_code_of_accepted (language : string) :
  assoc_mem LANGUAGE_MAPPING (Py.lower language) = true ->
  lang_code_of language = (if String.eqb (Py.lower language) "spanish" then "es-ES" else "en-US").
Proof.
  unfold lang_code_of, assoc_mem, assoc_get, LANGUAGE_MAPPING.
  cbn [existsb find fst snd orb].
  rewrite (String.eqb_sym (Py.lower language) "spanish").
  destruct (String.eqb "spanish" (Py.lower language)); [reflexivity|].
  destruct (String.eqb "english" (Py.lower language)); [reflexivity|].
  destruct (String.eqb "auto" (Py.lower language)); [reflexivity|discriminate].
Qed.

(** X7. A successful result names what produced it: ['language_detected'] is
    [es-ES] when the language, lower-cased, is [spanish] and [en-US]
    otherwise ([english] and [auto]), ['service_used'] is [vosk], the note
    names the same locale, and the model of that locale is in the cache when
    the call returns. *)
Theorem successful_result_names_its_model
    (E : env) (audio_path language : string) (w w' : world) (result : dict) :
  transcribe_audio E audio_path language w = (inr result, w') ->
  result !! "success" = Some (PBool true) ->
  let lang_code := if String.eqb (Py.lower language) "spanish" then "es-ES" else "en-US" in
  result !! "language_detected" = Some (PStr lang_code) /\
  result !! "service_used" = Some (PStr "vosk") /\
  result !! "note" = Some (PStr ("Transcribed using Vosk model for " ++ lang_code)) /\
  is_Some (models w' !! lang_code).
Proof.
  intros Hcall Hsuccess lang_code.
  destruct (transcribe_audio_cases E audio_path language w) as (r & w'' & Hcall' & Hcase).
  rewrite Hcall in Hcall'. injection Hcall' as <- <-.
  assert (Hstored : forall m w1 w2,
             _get_vosk_model E (lang_code_of language) w1 = (inr m, w2) ->
             models w2 !! lang_code_of language = Some m).
  { intros m w1 w2. rewrite _get_vosk_model_unfold.
    destruct (negb _); [discriminate|].
    destruct (models w1 !! lang_code_of language) as [m'|] eqn:Hm; [congruence|].
    destruct (assoc_get VOSK_MODELS _); [|discriminate].
    destruct (bool_decide _); [|discriminate].
    cbv zeta. destruct (vosk_Model E _); [discriminate|].
    intros [= <- <-]. cbn [models set_models set_loaded]. apply lookup_insert_eq. }
  destruct Hcase as [s1 r Hconv ->|wav w1 e Hconv Haudio
                    |wav w1 audio d2 w2 Hconv Haudio Hrec _
                    |wav w1 audio d2 w2 e Hconv Haudio Hrec _ _ _];
    try discriminate Hsuccess;
    destruct Hrec as [Hlang|e' w2 Hlang Hmodel|m e' w2 Hlang Hmodel Hrun
                     |m text confidence wts w2 Hlang Hmodel Hrun Htext Hstrip];
    try discriminate Hsuccess;
    apply Hstored in Hmodel;
    subst lang_code; rewrite <- (lang_code_of_accepted language Hlang);
    (repeat split; [reflexivity..|]).
  - destruct (negb _ && _); cbn [models set_fs]; eauto.
  - eauto.
Qed.

(** [Auto] is transcribed with the English model. *)
Lemma successful_result_names_its_model_witness :
  let E := Samples.service Samples.per_chunk Samples.silence in
  exists result,
    fst (transcribe_audio E "memo.wav" "Auto" Samples.fresh) = inr result /\
    result !! "language_detected" = Some (PStr "en-US").
Proof.
  intros E.
  destruct (transcribe_audio_outcome E "memo.wav" "Auto" Samples.fresh)
    as (result & Hcall & Hfst).
  exists result. split; [exact Hfst|].
  apply (successful_result_names_its_model E "memo.wav" "Auto" Samples.fresh _ result Hcall).
  assert (result = match fst (transcribe_audio E "memo.wav" "Auto" Samples.fresh) with
                   | inr d => d
                   | inl _ => ∅
                   end) as -> by (rewrite Hfst; reflexivity).
  vm_compute. reflexivity.
Defined.

(** X8. Every language [transcribe_audio] accepts has a model path in
    [VOSK_MODELS]: the recognition never fails for want of an entry in that
    table. *)
Theorem accepted_language_has_a_model (language : string) :
  assoc_mem LANGUAGE_MAPPING (Py.lower language) = true ->
  is_Some (assoc_get VOSK_MODELS (lang_code_of language)).
Proof.
  intros Hlang. rewrite (lang_code_of_accepted language Hlang).
  destruct (String.eqb _ "spanish"); eexists; reflexivity.
Qed.

Lemma accepted_language_has_a_model_witness :
  is_Some (assoc_get VOSK_MODELS (lang_code_of "SPANISH")).
Proof. apply (accepted_language_has_a_model "SPANISH"). reflexivity. Defined.

(** ** The report *)

Lemma create_word_document_run (E : env) (r : dict) (fn : string) (w : world) :
  create_word_document E r fn w =
    match build_document E r fn with
    | inl e => (inl (Exception ("Failed to create Word document: " ++ str e)), w)
    | inr doc =>
        match save E doc (report_path E w) with
        | Some e => (inl (Exception ("Failed to create Word document: " ++ str e)),
                     set_uuids S w)
        | None => (inr (report_path E w),
                   set_fs (insert (report_path E w) (Docx doc)) (set_uuids S w))
        end
    end.
Proof.
  unfold create_word_document, draw_uuid, report_path. run.
  destruct (build_document E r fn) as [e|doc]; [reflexivity|].
  run. destruct (save E doc _); reflexivity.
Qed.

(** X9. [create_word_document] either returns the path of a document it has
    saved, the file system being otherwise unchanged, or raises an exception
    whose message starts with [Failed to create Word document: ], and then
    no file has been written. *)
Theorem create_word_document_outcomes (E : env) (r : dict) (fn : string) (w : world) :
  match create_word_document E r fn w with
  | (inr path, w') =>
      exists doc, build_document E r fn = inr doc /\
                  fs w' = <[path := Docx doc]> (fs w) /\
                  calls w' = calls w /\ models w' = models w
  | (inl e, w') =>
      (exists cause, str e = "Failed to create Word document: " ++ str cause) /\
      fs w' = fs w /\ calls w' = calls w /\ models w' = models w
  end.
Proof.
  rewrite create_word_document_run.
  destruct (build_document E r fn) as [e|doc]; [eauto 6|].
  destruct (save E doc _); [eauto 6|]. exists doc. repeat split.
Qed.

Lemma build_document_of_result (E : env) (audio_path language : string) (w w' : world)
    (result : dict) (filename requested : string) (file_size : Z) :
  transcribe_audio E audio_path language w = (inr result, w') ->
  exists doc,
    build_document E (with_metadata filename requested file_size result) filename = inr doc.
Proof.
  intros Hcall.
  destruct (transcribe_audio_cases E audio_path language w) as (r & w'' & Hcall' & Hcase).
  rewrite Hcall in Hcall'. injection Hcall' as <- <-.
  destruct Hcase as [s1 r Hconv ->|wav w1 e Hconv Haudio
                    |wav w1 audio d2 w2 Hconv Haudio Hrec _
                    |wav w1 audio d2 w2 e Hconv Haudio Hrec _ _ _];
    try (eexists; reflexivity);
    destruct Hrec as [Hlang|e' w2 Hlang Hmodel|m e' w2 Hlang Hmodel Hrun
                     |m text confidence wts w2 Hlang Hmodel Hrun Htext Hstrip];
    eexists; reflexivity.
Qed.


(** ** The handler of [POST /api/convert] *)

Lemma convert_saved_run (E : env) (file : upload) (language filename file_ext : string)
    (w : world) :
  convert_saved E file language filename file_ext (tt, w) =
    let temp_path := upload_path E w file_ext in
    match file_save E temp_path with
    | Some e => (Raises e, (tt, set_uuids S w))
    | None =>
        try_finally
          (result ← call (transcribe_audio E temp_path language);
           report_upload E temp_path language filename result)
          (remove_upload E temp_path)
          (tt, set_fs (insert temp_path (Blob (size file))) (set_uuids S w))
    end.
Proof.
  unfold convert_saved, draw_uuid, upload_path. run.
  destruct (file_save E _); reflexivity.
Qed.

(** The outcome of a block guarded by the removal of the upload. *)
Lemma remove_upload_run (E : env) (temp_path : string) (w : world) :
  remove_upload E temp_path (tt, w) =
    if bool_decide (is_Some (fs w !! temp_path))
    then match remove E temp_path with
         | Some e => (Raises e, (tt, w))
         | None => (Normal tt, (tt, set_fs (delete temp_path) w))
         end
    else (Normal tt, (tt, w)).
Proof.
  unfold remove_upload, os_remove. run.
  destruct (bool_decide (is_Some (fs w !! temp_path))) eqn:Hp; run; trivial.
  rewrite Hp. run. destruct (remove E temp_path); reflexivity.
Qed.

Lemma report_upload_outcome (E : env) (temp_path language filename : string) (result : dict)
    (s : unit * world) :
  match report_upload E temp_path language filename result s with
  | (Normal a, _) => False
  | (Returns (Attachment _ name mimetype), _) =>
      name = fst (Path.splitext filename) ++ "_transcription.docx" /\ mimetype = docx_mimetype
  | (Returns (Json _ _), _) => False
  | (Raises _, _) => True
  end.
Proof.
  destruct s as [[] w]. unfold report_upload, getsize. run.
  destruct (fs w !! temp_path) as [[]|]; run; trivial;
    destruct (create_word_document E _ filename w) as [[e|doc_path] w']; auto.
Qed.

(** X11. The handler always answers: it never raises, and its answer is a
    JSON error with status 400 or 500, or the report as an attachment of the
    Word mime type. *)
Theorem convert_audio_always_answers (E : env) (request : request) (w : world) :
  exists response w',
    convert_audio E request w = (inr response, w') /\
    match response with
    | Json status _ => status = 400%Z \/ status = 500%Z
    | Attachment _ name mimetype => mimetype = docx_mimetype
    end.
Proof.
  unfold convert_audio. run.
  destruct (files request) as [e|request_files]; [answers|].
  destruct (request_files !! "audio_file") as [file|]; [|answers].
  destruct (String.eqb (filename file) ""); [answers|].
  destruct (25 * 1024 * 1024 <? size file)%Z; [answers|].
  destruct (negb (assoc_mem SUPPORTED_FORMATS _)); [answers|].
  rewrite convert_saved_run. cbv zeta.
  destruct (file_save E _); [answers|].
  run.
  destruct (transcribe_audio E _ _ _) as [[e|result] w2].
  { rewrite remove_upload_run.
    destruct (bool_decide _); [destruct (remove E _)|]; answers. }
  pose proof (report_upload_outcome E
                (upload_path E w
                   (Py.lstrip_char "."
                      (Py.lower (snd (Path.splitext (secure_filename E (filename file)))))))
                (default "auto" (form request !! "language"))
                (secure_filename E (filename file)) result (tt, w2)) as Hreport.
  destruct (report_upload E _ _ _ result (tt, w2)) as [[a|[status msg|path name mimetype]|e] [[] w3]];
    try contradiction;
    rewrite remove_upload_run;
    (destruct (bool_decide _); [destruct (remove E _)|]); try answers;
    eexists _, _; (split; [reflexivity|]); exact (proj2 Hreport).
Qed.

Lemma report_upload_succeeds (E : env) (temp_path language filename : string)
    (result : dict) (w : world) (f : file) (doc : document) :
  fs w !! temp_path = Some f ->
  build_document E (with_metadata filename language (size_of f) result) filename = inr doc ->
  save E doc (report_path E w) = None ->
  report_upload E temp_path language filename result (tt, w) =
    (Returns (Attachment (report_path E w)
                (fst (Path.splitext filename) ++ "_transcription.docx") docx_mimetype),
     (tt, set_fs (insert (report_path E w) (Docx doc)) (set_uuids S w))).
Proof.
  intros Hf Hbuild Hsave. unfold with_metadata in Hbuild.
  unfold report_upload, getsize. run. rewrite Hf.
  destruct f; cbn [size_of] in Hbuild; run;
    rewrite create_word_document_run, Hbuild, Hsave; reflexivity.
Qed.



(** X13. Requests that fail validation are answered at once and change
    nothing: a request without [audio_file], an upload without a name and
    an upload whose extension is not one of the nine supported ones get
    status 400 with their own message, and a request whose files cannot be
    read gets status 500 with the message of the exception. *)
Theorem invalid_upload_rejected (E : env) (request : request) (w : world) :
  (forall request_files,
      files request = inr request_files ->
      request_files !! "audio_file" = None ->
      convert_audio E request w = (inr (Json 400 "No audio file provided"), w)) /\
  (forall request_files file,
      files request = inr request_files ->
      request_files !! "audio_file" = Some file ->
      filename file = "" ->
      convert_audio E request w = (inr (Json 400 "No file selected"), w)) /\
  (forall request_files file,
      files request = inr request_files ->
      request_files !! "audio_file" = Some file ->
      filename file <> "" ->
      (size file <= 25 * 1024 * 1024)%Z ->
      let file_ext :=
        Py.lstrip_char "." (Py.lower (snd (Path.splitext (secure_filename E (filename file))))) in
      file_ext ∉ ["mp3"; "wav"; "aac"; "m4a"; "ogg"; "flac"; "wma"; "mp4"; "webm"] ->
      convert_audio E request w =
        (inr (Json 400 ("Unsupported file format: " ++ file_ext
                        ++ ". Supported formats: mp3, wav, aac, m4a, ogg, flac, wma, mp4, webm")),
         w)) /\
  (forall e, files request = inl e ->
             convert_audio E request w = (inr (Json 500 (str e)), w)).
Proof.
  repeat split.
  - intros request_files Hfiles Hnone. unfold convert_audio. run.
    rewrite Hfiles. run. rewrite Hnone. reflexivity.
  - intros request_files file Hfiles Hfile Hname. unfold convert_audio. run.
    rewrite Hfiles. run. rewrite Hfile, Hname. reflexivity.
  - intros request_files file Hfiles Hfile Hname Hsize file_ext Hext.
    assert (Hmem : assoc_mem SUPPORTED_FORMATS file_ext = false).
    { unfold assoc_mem. apply not_true_is_false. intros Hex.
      apply existsb_exists in Hex as (kv & Hkv & Heq). apply String.eqb_eq in Heq.
      apply Hext. rewrite <- Heq. apply list_elem_of_In.
      cbn in Hkv. repeat (destruct Hkv as [<-|Hkv]; [cbn; auto 12|]). contradiction. }
    subst file_ext. unfold convert_audio. run. run in Hmem.
    rewrite Hfiles. run. rewrite Hfile.
    rewrite (proj2 (String.eqb_neq _ _) Hname).
    rewrite (proj2 (Z.ltb_ge _ _) Hsize).
    rewrite Hmem. reflexivity.
  - intros e Hfiles. unfold convert_audio. run. rewrite Hfiles. reflexivity.
Qed.

(** ** The self-test of [GET /api/test-offline] *)

(** X14. The self-test always answers, with the status [success] or
    [error] and the three languages; it never answers [warning].  When the
    engine returns a transcription, unpacking its three values into two
    names raises, and the answer is the error
    [Vosk error: too many values to unpack (expected 2)]; when the engine
    reports that it heard no speech, the answer is [success]. *)
Theorem offline_test_never_warns (E : env) (recorded : Exc audio_data) (w : world) :
  exists report w',
    test_offline_recognition E recorded w = (inr report, w') /\
    (status report = "success" \/ status report = "error") /\
    available_languages report = ["spanish"; "english"; "auto"] /\
    (forall m w1 audio value,
        _get_vosk_model E "en-US" w = (inr m, w1) ->
        recorded = inr audio ->
        _transcribe_with_vosk (vosk E) audio m = inr value ->
        report = offline "error" "Vosk error: too many values to unpack (expected 2)") /\
    (forall m w1 audio,
        _get_vosk_model E "en-US" w = (inr m, w1) ->
        recorded = inr audio ->
        _transcribe_with_vosk (vosk E) audio m
          = inl (Exception "Vosk recognition error: No speech detected in audio") ->
        report = offline "success" vosk_works).
Proof.
  unfold test_offline_recognition. run.
  destruct (_get_vosk_model E "en-US" w) as [[e|m] w1].
  { eexists _, _. split; [reflexivity|]. repeat split; settle. }
  destruct recorded as [e|audio]; run.
  { eexists _, _. split; [reflexivity|]. repeat split; settle. }
  destruct (_transcribe_with_vosk (vosk E) audio m) as [e|value] eqn:Hrun; run.
  - destruct (Py.contains "No speech detected" (str e)) eqn:Hspeech;
      (eexists _, _; split; [reflexivity|]; repeat split; try settle).
    intros ? ? ? [= <- <-] [= <-] Hsilent. rewrite Hrun in Hsilent.
    injection Hsilent as ->. vm_compute in Hspeech. discriminate Hspeech.
  - eexists _, _. split; [reflexivity|]. repeat split; settle.
Qed.


(** ** What the service advertises *)

Lemma assoc_mem_keys {V} (table : list (string * V)) (key : string) :
  assoc_mem table key = true <-> key ∈ keys table.
Proof.
  unfold assoc_mem, keys. rewrite existsb_exists, list_elem_of_fmap. split.
  - intros (kv & Hin & Heq). apply String.eqb_eq in Heq.
    exists kv. split; [congruence|]. apply list_elem_of_In. exact Hin.
  - intros (kv & -> & Hin). exists kv. split.
    + apply list_elem_of_In. exact Hin.
    + apply String.eqb_refl.
Qed.

(** X15. What [GET /api/formats] lists is what the service accepts: an
    extension passes the check of [convert_audio] exactly when it is among
    the listed formats, and a language passes the check of
    [transcribe_audio] exactly when, lower-cased, it is among the listed
    languages; [GET /api/health] reports the lengths of the two lists. *)
Theorem advertised_is_accepted :
  (forall file_ext : string,
      assoc_mem SUPPORTED_FORMATS file_ext = true <-> file_ext ∈ formats get_supported_formats) /\
  (forall language : string,
      assoc_mem LANGUAGE_MAPPING (Py.lower language) = true
      <-> Py.lower language ∈ languages get_supported_formats) /\
  supported_formats health_check = length (formats get_supported_formats) /\
  supported_languages health_check = length (languages get_supported_formats).
Proof.
  repeat split; try apply assoc_mem_keys; try reflexivity.
Qed.
